(** * Discord event-log analyzer: a shallow embedding of [list.py]

    The development follows the script function by function:
    [format_duration], [pair_call_events], [analyze_file],
    [export_call_sessions] and the [Counter.most_common] ranking used by
    [main] and [export_event_counts].

    Python objects that reach the script are modelled by the types below:
    decoded JSON as [value], [datetime] objects by their fields, raised
    exceptions by the [Raise] constructor of [result]. *)

From Stdlib Require Import ZArith QArith List String Ascii Bool Lia.
From Stdlib Require Import Permutation Sorted DecimalString Floats.SpecFloat.
Import ListNotations.

Local Open Scope string_scope.
Local Open Scope list_scope.
Local Open Scope Z_scope.

(* ================================================================== *)
(** ** Exceptions *)

(** The exception classes the script can let escape. *)
Inductive exn : Type :=
| AttributeError
| TypeError
| ValueError.

(** The outcome of a Python computation: a value, or a raised exception. *)
Inductive result (A : Type) : Type :=
| Ok (a : A)
| Raise (e : exn).

Arguments Ok {A} a.
Arguments Raise {A} e.

Definition bind {A B : Type} (m : result A) (k : A -> result B) : result B :=
  match m with
  | Ok a => k a
  | Raise e => Raise e
  end.

Notation "x <- m ;; k" := (bind m (fun x => k))
  (at level 61, m at next level, right associativity).

(* ================================================================== *)
(** ** Python values *)

#[local] Set Warnings "-register-all".

(** What [json.loads] can return.  A [float] is an IEEE binary64 value,
    a [dict] keeps its keys in insertion order (keys of a decoded JSON
    object are strings). *)
Inductive value : Type :=
| VNone
| VBool (b : bool)
| VInt (z : Z)
| VFloat (f : spec_float)
| VStr (s : string)
| VList (l : list value)
| VDict (d : list (string * value)).

(** [bool(v)]: the truth value used by [not], [or] and [and]. *)
Definition truthy (v : value) : bool :=
  match v with
  | VNone => false
  | VBool b => b
  | VInt z => negb (z =? 0)
  | VFloat (S754_zero _) => false
  | VFloat _ => true
  | VStr s => negb (String.eqb s EmptyString)
  | VList l => match l with [] => false | _ => true end
  | VDict d => match d with [] => false | _ => true end
  end.

(** [a or b]. *)
Definition py_or (a b : value) : value := if truthy a then a else b.

(** Lists and dicts have no hash; using one as a mapping key raises
    [TypeError]. *)
Definition hashable (v : value) : bool :=
  match v with
  | VList _ | VDict _ => false
  | _ => true
  end.

(** Exact comparison of an integer with a binary64 value. *)
Definition int_eq_float (z : Z) (f : spec_float) : bool :=
  match f with
  | S754_zero _ => z =? 0
  | S754_finite s m e =>
      let sm := if s then Z.neg m else Z.pos m in
      if 0 <=? e then (sm * 2 ^ e =? z) else (sm =? z * 2 ^ (- e))
  | _ => false
  end.

Definition int_of_bool (b : bool) : Z := if b then 1 else 0.

(** [a == b] on hashable values: numbers compare by value across [bool],
    [int] and [float] (so [True], [1] and [1.0] are one key), a NaN equals
    nothing. *)
Definition py_eqb (a b : value) : bool :=
  match a, b with
  | VNone, VNone => true
  | VStr s, VStr t => String.eqb s t
  | VBool x, VBool y => Bool.eqb x y
  | VInt x, VInt y => x =? y
  | VBool x, VInt y | VInt y, VBool x => int_of_bool x =? y
  | VFloat f, VFloat g => SFeqb f g
  | VInt x, VFloat f | VFloat f, VInt x => int_eq_float x f
  | VBool x, VFloat f | VFloat f, VBool x => int_eq_float (int_of_bool x) f
  | _, _ => false
  end.

(** [record.get(key)] on a dict: the value stored under [key], if any. *)
Fixpoint dict_get (d : list (string * value)) (key : string) : option value :=
  match d with
  | [] => None
  | (k, v) :: rest => if String.eqb k key then Some v else dict_get rest key
  end.

(** [record.get(key, default)].  Only a dict has a [get] method. *)
Definition py_get (record : value) (key : string) (default : value)
  : result value :=
  match record with
  | VDict d => Ok (match dict_get d key with Some v => v | None => default end)
  | _ => Raise AttributeError
  end.

(* ================================================================== *)
(** ** [datetime] *)

(** A [datetime] object by its fields; [tzinfo] is the UTC offset in
    microseconds of an aware datetime and [None] for a naive one. *)
Record datetime : Type := mk_datetime {
  year : Z;
  month : Z;
  day : Z;
  hour : Z;
  minute : Z;
  second : Z;
  microsecond : Z;
  tzinfo : option Z
}.

Definition is_leap (y : Z) : bool :=
  ((y mod 4 =? 0) && (negb (y mod 100 =? 0) || (y mod 400 =? 0)))%bool.

Definition days_before_year (y : Z) : Z :=
  let p := y - 1 in p * 365 + p / 4 - p / 100 + p / 400.

Definition days_before_month (y m : Z) : Z :=
  nth (Z.to_nat m) [0; 0; 31; 59; 90; 120; 151; 181; 212; 243; 273; 304; 334] 0
  + (if ((2 <? m) && is_leap y)%bool then 1 else 0).

(** Proleptic Gregorian ordinal: 0001-01-01 is day 1. *)
Definition ymd2ord (y m d : Z) : Z :=
  days_before_year y + days_before_month y m + d.

(** Microseconds on the wall clock since the start of day 0. *)
Definition wall_us (t : datetime) : Z :=
  (((ymd2ord (year t) (month t) (day t) * 24 + hour t) * 60 + minute t) * 60
   + second t) * 1000000 + microsecond t.

(** The point on the time line a datetime denotes: for an aware datetime
    the wall clock minus the UTC offset. *)
Definition instant (t : datetime) : Z :=
  match tzinfo t with
  | Some off => wall_us t - off
  | None => wall_us t
  end.

Definition aware (t : datetime) : bool :=
  match tzinfo t with Some _ => true | None => false end.

(** [a < b].  Ordering a naive against an aware datetime raises
    [TypeError]. *)
Definition dt_lt (a b : datetime) : result bool :=
  if Bool.eqb (aware a) (aware b) then Ok (instant a <? instant b)
  else Raise TypeError.

(** [a <= b], with the same exception. *)
Definition dt_le (a b : datetime) : result bool :=
  if Bool.eqb (aware a) (aware b) then Ok (instant a <=? instant b)
  else Raise TypeError.

(** [a == b]: never raises, a naive and an aware datetime are unequal. *)
Definition dt_eqb (a b : datetime) : bool :=
  (Bool.eqb (aware a) (aware b) && (instant a =? instant b))%bool.

(** [a - b] as a [timedelta], in microseconds. *)
Definition dt_sub (a b : datetime) : result Z :=
  if Bool.eqb (aware a) (aware b) then Ok (instant a - instant b)
  else Raise TypeError.

(** [td.total_seconds()].  The code gets the binary64 float nearest to
    this quotient; the model keeps the quotient itself.  The two have the
    same sign and are zero together; their whole seconds can differ only
    for spans of several centuries that end just below a full second. *)
Definition total_seconds (td : Z) : Q := td # 1000000.

(* ================================================================== *)
(** ** [sorted] *)

Section Sorted.
Context {A : Type}.
(** [lt x y] is [key(x) < key(y)], which may raise. *)
Variable lt : A -> A -> result bool.

(** [sorted] is a stable sort that only asks whether one key is less
    than another.  Its result is the one a stable insertion sort gives.
    The two uses in the script compare datetimes, where a comparison
    raises exactly between a naive and an aware one, and counts, where
    none raises: a list with both kinds of datetime makes any sort meet
    such a pair, so the exception is the same as well.

    [insert_asc x l] puts [x], which stood before the elements of [l]
    in the input, in front of the first element that is not less than
    it. *)
Fixpoint insert_asc (x : A) (l : list A) : result (list A) :=
  match l with
  | [] => Ok [x]
  | y :: l' =>
      b <- lt y x ;;
      if b then (r <- insert_asc x l' ;; Ok (y :: r))
      else Ok (x :: y :: l')
  end.

Fixpoint sorted_asc (l : list A) : result (list A) :=
  match l with
  | [] => Ok []
  | x :: l' => s <- sorted_asc l' ;; insert_asc x s
  end.

(** [sorted(..., reverse=True)]: largest first, equal elements still in
    their original order. *)
Fixpoint insert_desc (x : A) (l : list A) : result (list A) :=
  match l with
  | [] => Ok [x]
  | y :: l' =>
      b <- lt x y ;;
      if b then (r <- insert_desc x l' ;; Ok (y :: r))
      else Ok (x :: y :: l')
  end.

Fixpoint sorted_desc (l : list A) : result (list A) :=
  match l with
  | [] => Ok []
  | x :: l' => s <- sorted_desc l' ;; insert_desc x s
  end.
End Sorted.

(* ================================================================== *)
(** ** String methods used on the timestamp *)

(** The double quote character. *)
Definition dquote : ascii := "034"%char.

(** [s] without the run of [c] at its front, and at its end. *)
Fixpoint lstrip (c : ascii) (s : string) : string :=
  match s with
  | EmptyString => EmptyString
  | String a s' => if Ascii.eqb a c then lstrip c s' else s
  end.

Fixpoint rstrip (c : ascii) (s : string) : string :=
  match s with
  | EmptyString => EmptyString
  | String a s' =>
      match rstrip c s' with
      | EmptyString =>
          if Ascii.eqb a c then EmptyString else String a EmptyString
      | r => String a r
      end
  end.

(** [s.strip(c)] for a one-character [c]. *)
Definition strip (c : ascii) (s : string) : string := rstrip c (lstrip c s).

(** [s.replace(c, by)] for a one-character [c]: every occurrence. *)
Fixpoint replace (c : ascii) (by_ : string) (s : string) : string :=
  match s with
  | EmptyString => EmptyString
  | String a s' =>
      if Ascii.eqb a c then (by_ ++ replace c by_ s')%string
      else String a (replace c by_ s')
  end.

(** The timestamp with double quotes stripped from both ends and every
    [Z] replaced by [+00:00]; only a [str] has [strip]. *)
Definition normalize_timestamp (ts : value) : result string :=
  match ts with
  | VStr s => Ok (replace "Z"%char "+00:00" (strip dquote s))
  | _ => Raise AttributeError
  end.

(* ================================================================== *)
(** ** Event configuration *)

Definition CALL_START_EVENTS : list string :=
  ["join_call"; "start_call"; "voice_connection_success"].
Definition CALL_END_EVENTS : list string := ["voice_disconnect"].
Definition STREAM_START_EVENT : string := "video_stream_started".
Definition STREAM_END_EVENT : string := "video_stream_ended".
Definition MESSAGE_EVENT : string := "send_message".

(** [s in set_of_strings]. *)
Definition str_in (s : string) (set : list string) : bool :=
  existsb (String.eqb s) set.

(* ================================================================== *)
(** ** [format_duration] *)

(** [str(n)] for an integer. *)
Definition str_of_Z (n : Z) : string := NilEmpty.string_of_int (Z.to_int n).

(** [int(x)] for a float: truncation toward zero. *)
Definition py_int (x : Q) : Z := Z.quot (Qnum x) (Z.pos (Qden x)).

Definition format_duration (seconds : Q) : string :=
  let sec := py_int seconds in
  let h := sec / 3600 in
  let rem := sec mod 3600 in
  let m := rem / 60 in
  let s := rem mod 60 in
  (str_of_Z h ++ "h " ++ str_of_Z m ++ "m " ++ str_of_Z s ++ "s")%string.

(* ================================================================== *)
(** ** [pair_call_events] *)

(** A call event [(event_type, ts, context)]. *)
Definition call_event : Type := (string * datetime * value)%type.

(** A session dict; [end_] is the key ["end"]. *)
Record session : Type := mk_session {
  start : datetime;
  end_ : datetime;
  server : value;
  duration_sec : Q
}.

Definition event_ts (e : call_event) : datetime := snd (fst e).

(** The body of the [for] loop.  [stack] has its top at the head;
    [sessions] grows at its end. *)
Fixpoint pair_loop (events : list call_event)
    (stack : list (datetime * value)) (sessions : list session)
  : result (list session) :=
  match events with
  | [] => Ok sessions
  | (event_type, ts, context) :: rest =>
      if str_in event_type CALL_START_EVENTS then
        pair_loop rest ((ts, context) :: stack) sessions
      else if str_in event_type CALL_END_EVENTS then
        match stack with
        | (start_ts, start_ctx) :: stack' =>
            td <- dt_sub ts start_ts ;;
            pair_loop rest stack'
              (sessions ++ [ {| start := start_ts;
                                end_ := ts;
                                server := py_or start_ctx (VStr "Unknown/DM");
                                duration_sec := total_seconds td |} ])
        | [] => pair_loop rest stack sessions
        end
      else pair_loop rest stack sessions
  end.

Definition pair_call_events (events : list call_event)
  : result (list session) :=
  sorted_ev <- sorted_asc (fun x y => dt_lt (event_ts x) (event_ts y)) events ;;
  pair_loop sorted_ev [] [].

(* ================================================================== *)
(** ** [Counter] *)

(** A [Counter] is a dict: entries in insertion order, keys pairwise
    unequal. *)
Definition Counter : Type := list (value * Z).

(** How a dict finds a key: the same object, or an equal one.  The only
    object that is not equal to itself is a NaN, and [json.loads]
    returns one and the same NaN object for every NaN it reads. *)
Definition key_eqb (a b : value) : bool :=
  match a, b with
  | VFloat S754_nan, VFloat S754_nan => true
  | _, _ => py_eqb a b
  end.

(** [c[key] += 1] for a hashable [key]: an existing entry is updated in
    place, a new key goes to the end. *)
Fixpoint counter_add1 (key : value) (c : Counter) : Counter :=
  match c with
  | [] => [(key, 1)]
  | (k, n) :: rest =>
      if key_eqb k key then (k, n + 1) :: rest
      else (k, n) :: counter_add1 key rest
  end.

Definition counter_incr (key : value) (c : Counter) : result Counter :=
  if hashable key then Ok (counter_add1 key c) else Raise TypeError.

(** [sum(c.values())]. *)
Definition counter_total (c : Counter) : Z :=
  fold_right (fun kv acc => snd kv + acc) 0 c.

(** [c.most_common()]: entries by count, largest first, ties in
    insertion order. *)
Definition most_common_all (c : Counter) : result (list (value * Z)) :=
  sorted_desc (fun x y => Ok (snd x <? snd y)) c.

(** [c.most_common(n)]: the first [n] of them. *)
Definition most_common (n : nat) (c : Counter) : result (list (value * Z)) :=
  l <- most_common_all c ;; Ok (firstn n l).

(* ================================================================== *)
(** ** The accumulators of [analyze_file] *)

(** A collected message dict. *)
Record message : Type := mk_message {
  timestamp : datetime;
  channel : value;
  length_ : value;
  word_count : value
}.

(** The three accumulators of the reading loop, and the dict returned. *)
Record analysis : Type := mk_analysis {
  event_counts : Counter;
  call_events : list call_event;
  messages : list message
}.

Definition empty_analysis : analysis :=
  {| event_counts := []; call_events := []; messages := [] |}.

(* ================================================================== *)
(** ** Rows written by [export_call_sessions] *)

(** A row handed to [csv.writer], by column. *)
Record csv_row : Type := mk_csv_row {
  Server_Channel : value;
  Start : string;
  End_ : string;
  Duration_Readble : string;
  Duration_Sec : Z
}.

(** An object handed to [json.dump], by key. *)
Record json_row : Type := mk_json_row {
  j_server : value;
  j_start : string;
  j_end : string;
  j_duration_readable : string;
  j_duration_sec : Q
}.

(* ================================================================== *)
(** ** [analyze_file] and [export_call_sessions]

    The functions of the standard library that decode and print are
    parameters of the section: what is proved of the script holds for
    whatever they return. *)

Section Analyzer.
(** [json.loads]: [None] stands for [json.JSONDecodeError], the one
    exception the loop catches.  Any other exception of the decoder (a
    recursion limit, a limit on the digits of an integer) is not caught
    by the loop and has no place in this type: what follows is about
    lines on which [json.loads] returns a value or raises
    [JSONDecodeError]. *)
Variable json_loads : string -> option value.
(** [datetime.fromisoformat]: [None] stands for [ValueError]. *)
Variable fromisoformat : string -> option datetime.
(** [datetime.isoformat]. *)
Variable isoformat : datetime -> string.

(** One iteration of [for line in f]. *)
Definition analyze_line (st : analysis) (line : string) : result analysis :=
  match json_loads line with
  | None => Ok st
  | Some record =>
      et <- py_get record "event_type" VNone ;;
      if negb (truthy et) then Ok st
      else
        counters <- counter_incr et (event_counts st) ;;
        let st1 := {| event_counts := counters;
                      call_events := call_events st;
                      messages := messages st |} in
        ts <- py_get record "timestamp" VNone ;;
        if negb (truthy ts) then Ok st1
        else
          iso <- normalize_timestamp ts ;;
          match fromisoformat iso with
          | None => Raise ValueError
          | Some dt =>
              match et with
              | VStr name =>
                  if str_in name (CALL_START_EVENTS ++ CALL_END_EVENTS) then
                    g <- py_get record "guild_id" VNone ;;
                    c <- py_get record "channel_id" VNone ;;
                    Ok {| event_counts := counters;
                          call_events :=
                            call_events st ++ [(name, dt, py_or g c)];
                          messages := messages st |}
                  else if String.eqb name MESSAGE_EVENT then
                    ch <- py_get record "channel" VNone ;;
                    len <- py_get record "length" (VInt 0) ;;
                    wc <- py_get record "word_count" (VInt 0) ;;
                    Ok {| event_counts := counters;
                          call_events := call_events st;
                          messages :=
                            messages st ++
                            [ {| timestamp := dt; channel := ch;
                                 length_ := len; word_count := wc |} ] |}
                  else Ok st1
              | _ => Ok st1
              end
          end
  end.

(** The whole loop over the lines of the file. *)
Fixpoint analyze_lines (st : analysis) (lines : list string)
  : result analysis :=
  match lines with
  | [] => Ok st
  | line :: rest => st' <- analyze_line st line ;; analyze_lines st' rest
  end.

(** [analyze_file], the file given by its lines. *)
Definition analyze_file (lines : list string) : result analysis :=
  st <- analyze_lines empty_analysis lines ;;
  msgs <- sorted_desc
            (fun x y => dt_lt (timestamp x) (timestamp y)) (messages st) ;;
  Ok {| event_counts := event_counts st;
        call_events := call_events st;
        messages := msgs |}.

(** *** [export_call_sessions] *)

Definition csv_of_session (s : session) : csv_row :=
  {| Server_Channel := server s;
     Start := isoformat (start s);
     End_ := isoformat (end_ s);
     Duration_Readble := format_duration (duration_sec s);
     Duration_Sec := py_int (duration_sec s) |}.

Definition json_of_session (s : session) : json_row :=
  {| j_server := server s;
     j_start := isoformat (start s);
     j_end := isoformat (end_ s);
     j_duration_readable := format_duration (duration_sec s);
     j_duration_sec := duration_sec s |}.

(** What is written to the CSV file (below the header row) and to the
    JSON file. *)
Definition export_call_sessions (sessions : list session)
  : list csv_row * list json_row :=
  (map csv_of_session sessions, map json_of_session sessions).

End Analyzer.

(* ================================================================== *)
(** ** Reference behaviour of the library functions

    [json.loads], [datetime.fromisoformat] and [datetime.isoformat] as
    their documentation describes them, to run the script on concrete
    text.  Strings are the UTF-8 bytes of the Python text.  The decoder
    has no limit on nesting or on the digits of an integer, and the
    timestamp grammar is the one of Python 3.7 to 3.10, of which later
    versions accept a superset; the samples stay within what every
    version reads alike. *)

Module PyLib.

Definition code (c : ascii) : Z := Z.of_nat (nat_of_ascii c).
Definition chr (n : Z) : ascii := ascii_of_nat (Z.to_nat n).

Definition is_ws (c : ascii) : bool :=
  let n := code c in ((n =? 32) || (n =? 9) || (n =? 10) || (n =? 13))%bool.

Fixpoint skip_ws (s : string) : string :=
  match s with
  | String c s' => if is_ws c then skip_ws s' else s
  | EmptyString => s
  end.

Definition is_digit (c : ascii) : bool :=
  ((48 <=? code c) && (code c <=? 57))%bool.

(** The longest run of decimal digits at the front of [s]: its value
    after the digits already read as [acc], their number added to [n],
    and the rest. *)
Fixpoint read_digits (s : string) (acc : Z) (n : Z) : Z * Z * string :=
  match s with
  | String c s' =>
      if is_digit c then read_digits s' (acc * 10 + (code c - 48)) (n + 1)
      else (acc, n, s)
  | EmptyString => (acc, n, s)
  end.

(** [float(text)] for the decimal [m * 10 ^ e10], correctly rounded to
    binary64. *)
Definition float_of_decimal (neg : bool) (m e10 : Z) : spec_float :=
  if m =? 0 then S754_zero neg
  else if 0 <=? e10 then
    binary_normalize 53 1024 ((if neg then - m else m) * 10 ^ e10) 0 false
  else
    SFdiv 53 1024 (S754_finite neg (Z.to_pos m) 0)
                  (S754_finite false (Z.to_pos (10 ^ (- e10))) 0).

(** A number: an optional minus sign, then 0 or a run of digits that
    does not start with 0, then optionally a point and digits, then
    optionally an exponent.  Without fraction and exponent it is an
    [int], else a [float]. *)
Definition parse_number (s : string) : option (value * string) :=
  let '(neg, s1) :=
    match s with
    | String "-" r => (true, r)
    | _ => (false, s)
    end in
  match s1 with
  | String c r =>
      if is_digit c then
        let '(ip, _, s2) :=
          if code c =? 48 then (0, 1, r) else read_digits s1 0 0 in
        let '(fm, fn, s3, has_frac) :=
          match s2 with
          | String "." r2 =>
              let '(m, n, r3) := read_digits r2 ip 0 in
              if 0 <? n then (m, n, r3, true) else (ip, 0, s2, false)
          | _ => (ip, 0, s2, false)
          end in
        let '(ex, s4, has_exp) :=
          match s3 with
          | String e r3 =>
              if ((code e =? 101) || (code e =? 69))%bool then
                let '(eneg, r4) :=
                  match r3 with
                  | String "-" r' => (true, r')
                  | String "+" r' => (false, r')
                  | _ => (false, r3)
                  end in
                let '(x, n, r5) := read_digits r4 0 0 in
                if 0 <? n then ((if eneg then - x else x), r5, true)
                else (0, s3, false)
              else (0, s3, false)
          | _ => (0, s3, false)
          end in
        if (has_frac || has_exp)%bool then
          Some (VFloat (float_of_decimal neg fm (ex - fn)), s4)
        else Some (VInt (if neg then - ip else ip), s4)
      else None
  | EmptyString => None
  end.

Definition hex_val (c : ascii) : option Z :=
  let n := code c in
  if ((48 <=? n) && (n <=? 57))%bool then Some (n - 48)
  else if ((97 <=? n) && (n <=? 102))%bool then Some (n - 87)
  else if ((65 <=? n) && (n <=? 70))%bool then Some (n - 55)
  else None.

(** Four hexadecimal digits. *)
Definition read_hex4 (s : string) : option (Z * string) :=
  match s with
  | String a (String b (String c (String d r))) =>
      match hex_val a, hex_val b, hex_val c, hex_val d with
      | Some x, Some y, Some z, Some w =>
          Some (((x * 16 + y) * 16 + z) * 16 + w, r)
      | _, _, _, _ => None
      end
  | _ => None
  end.

(** The UTF-8 bytes of a code point. *)
Definition utf8 (cp : Z) : string :=
  if cp <? 128 then String (chr cp) EmptyString
  else if cp <? 2048 then
    String (chr (192 + cp / 64)) (String (chr (128 + cp mod 64)) EmptyString)
  else if cp <? 65536 then
    String (chr (224 + cp / 4096))
      (String (chr (128 + (cp / 64) mod 64))
         (String (chr (128 + cp mod 64)) EmptyString))
  else
    String (chr (240 + cp / 262144))
      (String (chr (128 + (cp / 4096) mod 64))
         (String (chr (128 + (cp / 64) mod 64))
            (String (chr (128 + cp mod 64)) EmptyString))).

(** The characters of a string literal after its opening quote, up to
    the closing one. *)
Fixpoint parse_chars (fuel : nat) (s : string) : option (string * string) :=
  match fuel with
  | O => None
  | S fuel' =>
      match s with
      | EmptyString => None
      | String c r =>
          if Ascii.eqb c dquote then Some (EmptyString, r)
          else if code c =? 92 then
            match r with
            | String e r' =>
                let simple (b : Z) :=
                  match parse_chars fuel' r' with
                  | Some (t, rest) => Some (String (chr b) t, rest)
                  | None => None
                  end in
                if Ascii.eqb e dquote then simple 34
                else if code e =? 92 then simple 92
                else if code e =? 47 then simple 47
                else if code e =? 98 then simple 8
                else if code e =? 102 then simple 12
                else if code e =? 110 then simple 10
                else if code e =? 114 then simple 13
                else if code e =? 116 then simple 9
                else if code e =? 117 then
                  match read_hex4 r' with
                  | Some (hi, r2) =>
                      let '(cp, r3) :=
                        if ((55296 <=? hi) && (hi <=? 56319))%bool then
                          match r2 with
                          | String b1 (String b2 r2') =>
                              if ((code b1 =? 92) && (code b2 =? 117))%bool
                              then
                                match read_hex4 r2' with
                                | Some (lo, r4) =>
                                    if ((56320 <=? lo) && (lo <=? 57343))%bool
                                    then (65536 + (hi - 55296) * 1024
                                          + (lo - 56320), r4)
                                    else (hi, r2)
                                | None => (hi, r2)
                                end
                              else (hi, r2)
                          | _ => (hi, r2)
                          end
                        else (hi, r2) in
                      match parse_chars fuel' r3 with
                      | Some (t, rest) => Some ((utf8 cp ++ t)%string, rest)
                      | None => None
                      end
                  | None => None
                  end
                else None
            | EmptyString => None
            end
          else if code c <? 32 then None
          else
            match parse_chars fuel' r with
            | Some (t, rest) => Some (String c t, rest)
            | None => None
            end
      end
  end.

(** [d[key] = v] on a dict under construction. *)
Fixpoint dict_set (d : list (string * value)) (key : string) (v : value)
  : list (string * value) :=
  match d with
  | [] => [(key, v)]
  | (k, w) :: rest =>
      if String.eqb k key then (k, v) :: rest
      else (k, w) :: dict_set rest key v
  end.

Definition starts_with (p s : string) : option string :=
  if String.prefix p s
  then Some (substring (String.length p) (String.length s - String.length p) s)
  else None.

(** One JSON value at the front of [s]; [parse_elements] and
    [parse_members] read what follows the opening bracket or brace. *)
Fixpoint parse_value (fuel : nat) (s : string) : option (value * string) :=
  match fuel with
  | O => None
  | S fuel' =>
      match s with
      | EmptyString => None
      | String c r =>
          if Ascii.eqb c dquote then
            match parse_chars fuel' r with
            | Some (t, rest) => Some (VStr t, rest)
            | None => None
            end
          else if code c =? 123 then
            match skip_ws r with
            | String c' r' =>
                if code c' =? 125 then Some (VDict [], r')
                else parse_members fuel' (skip_ws r) []
            | EmptyString => None
            end
          else if code c =? 91 then
            match skip_ws r with
            | String c' r' =>
                if code c' =? 93 then Some (VList [], r')
                else parse_elements fuel' (skip_ws r) []
            | EmptyString => None
            end
          else
            match starts_with "null" s, starts_with "true" s,
                  starts_with "false" s with
            | Some rest, _, _ => Some (VNone, rest)
            | _, Some rest, _ => Some (VBool true, rest)
            | _, _, Some rest => Some (VBool false, rest)
            | _, _, _ =>
                match parse_number s with
                | Some res => Some res
                | None =>
                    match starts_with "NaN" s, starts_with "Infinity" s,
                          starts_with "-Infinity" s with
                    | Some rest, _, _ => Some (VFloat S754_nan, rest)
                    | _, Some rest, _ =>
                        Some (VFloat (S754_infinity false), rest)
                    | _, _, Some rest =>
                        Some (VFloat (S754_infinity true), rest)
                    | _, _, _ => None
                    end
                end
            end
      end
  end
with parse_elements (fuel : nat) (s : string) (acc : list value)
  : option (value * string) :=
  match fuel with
  | O => None
  | S fuel' =>
      match parse_value fuel' s with
      | Some (v, rest) =>
          match skip_ws rest with
          | String c r =>
              if code c =? 44 then parse_elements fuel' (skip_ws r) (acc ++ [v])
              else if code c =? 93 then Some (VList (acc ++ [v]), r)
              else None
          | EmptyString => None
          end
      | None => None
      end
  end
with parse_members (fuel : nat) (s : string) (acc : list (string * value))
  : option (value * string) :=
  match fuel with
  | O => None
  | S fuel' =>
      match s with
      | String q r =>
          if Ascii.eqb q dquote then
            match parse_chars fuel' r with
            | Some (key, rest) =>
                match skip_ws rest with
                | String colon r1 =>
                    if code colon =? 58 then
                      match parse_value fuel' (skip_ws r1) with
                      | Some (v, rest') =>
                          match skip_ws rest' with
                          | String c r2 =>
                              if code c =? 44 then
                                parse_members fuel' (skip_ws r2)
                                  (dict_set acc key v)
                              else if code c =? 125 then
                                Some (VDict (dict_set acc key v), r2)
                              else None
                          | EmptyString => None
                          end
                      | None => None
                      end
                    else None
                | EmptyString => None
                end
            | None => None
            end
          else None
      | EmptyString => None
      end
  end.

(** [json.loads(text)]: one value, white space around it, nothing else. *)
Definition json_loads (text : string) : option value :=
  match parse_value (S (String.length text)) (skip_ws text) with
  | Some (v, rest) =>
      match skip_ws rest with
      | EmptyString => Some v
      | _ => None
      end
  | None => None
  end.

(** *** [datetime.fromisoformat] and [datetime.isoformat] *)

Definition days_in_month (y m : Z) : Z :=
  if ((m =? 2) && is_leap y)%bool then 29
  else nth (Z.to_nat m) [0; 31; 28; 31; 30; 31; 30; 31; 31; 30; 31; 30; 31] 0.

(** Exactly [n] decimal digits at the front of [s]. *)
Fixpoint take_digits (n : nat) (s : string) (acc : Z) : option (Z * string) :=
  match n with
  | O => Some (acc, s)
  | S n' =>
      match s with
      | String c r =>
          if is_digit c then take_digits n' r (acc * 10 + (code c - 48))
          else None
      | EmptyString => None
      end
  end.

(** The character [c] at the front of [s]. *)
Definition take_char (c : ascii) (s : string) : option string :=
  match s with
  | String a r => if Ascii.eqb a c then Some r else None
  | EmptyString => None
  end.

(** [HH[:MM[:SS[.fff[fff]]]]], all of [s]: hours, minutes, seconds and
    microseconds. *)
Definition parse_hh_mm_ss_ff (s : string) : option (Z * Z * Z * Z) :=
  match take_digits 2 s 0 with
  | None => None
  | Some (hh, EmptyString) => Some (hh, 0, 0, 0)
  | Some (hh, s1) =>
      match take_char ":" s1 with
      | None => None
      | Some s2 =>
          match take_digits 2 s2 0 with
          | None => None
          | Some (mm, EmptyString) => Some (hh, mm, 0, 0)
          | Some (mm, s3) =>
              match take_char ":" s3 with
              | None => None
              | Some s4 =>
                  match take_digits 2 s4 0 with
                  | None => None
                  | Some (ss, EmptyString) => Some (hh, mm, ss, 0)
                  | Some (ss, s5) =>
                      match take_char "." s5 with
                      | None => None
                      | Some s6 =>
                          match take_digits 3 s6 0 with
                          | None => None
                          | Some (ms, EmptyString) =>
                              Some (hh, mm, ss, ms * 1000)
                          | Some (ms, s7) =>
                              match take_digits 3 s7 ms with
                              | Some (us, EmptyString) =>
                                  Some (hh, mm, ss, us)
                              | _ => None
                              end
                          end
                      end
                  end
              end
          end
      end
  end.

(** [s] cut at its first plus or minus sign: what is before it, and the
    sign ([true] for minus) with what follows it. *)
Fixpoint split_sign (s : string) : string * option (bool * string) :=
  match s with
  | EmptyString => (EmptyString, None)
  | String c r =>
      if Ascii.eqb c "+" then (EmptyString, Some (false, r))
      else if Ascii.eqb c "-" then (EmptyString, Some (true, r))
      else let '(t, z) := split_sign r in (String c t, z)
  end.

(** The time of day and the UTC offset, from what follows the separator. *)
Definition parse_isoformat_time (s : string)
  : option (Z * Z * Z * Z * option Z) :=
  let '(tstr, tz) := split_sign s in
  match parse_hh_mm_ss_ff tstr with
  | None => None
  | Some (hh, mm, ss, us) =>
      match tz with
      | None => Some (hh, mm, ss, us, None)
      | Some (neg, tzstr) =>
          let n := String.length tzstr in
          if (Nat.eqb n 5 || Nat.eqb n 8 || Nat.eqb n 15)%bool then
            match parse_hh_mm_ss_ff tzstr with
            | None => None
            | Some (th, tm, tsec, tus) =>
                let off := ((th * 60 + tm) * 60 + tsec) * 1000000 + tus in
                Some (hh, mm, ss, us, Some (if neg then - off else off))
            end
          else None
      end
  end.

(** [datetime.fromisoformat]: the format
    YYYY-MM-DD[*HH[:MM[:SS[.fff[fff]]]][+HH:MM[:SS[.ffffff]]]], where the
    star is any one character, with the range checks of the [datetime]
    constructor.  [None] is [ValueError]. *)
Definition fromisoformat (s : string) : option datetime :=
  match take_digits 4 s 0 with
  | None => None
  | Some (y, s1) =>
  match take_char "-" s1 with
  | None => None
  | Some s2 =>
  match take_digits 2 s2 0 with
  | None => None
  | Some (m, s3) =>
  match take_char "-" s3 with
  | None => None
  | Some s4 =>
  match take_digits 2 s4 0 with
  | None => None
  | Some (d, s5) =>
      let time :=
        match s5 with
        | EmptyString => Some (0, 0, 0, 0, None)
        | String _ tstr => parse_isoformat_time tstr
        end in
      match time with
      | None => None
      | Some (hh, mm, ss, us, tz) =>
          if ((1 <=? y) && (1 <=? m) && (m <=? 12)
              && (1 <=? d) && (d <=? days_in_month y m)
              && (hh <? 24) && (mm <? 60) && (ss <? 60)
              && match tz with
                 | Some off => Z.abs off <? 86400000000
                 | None => true
                 end)%bool
          then Some {| year := y; month := m; day := d;
                       hour := hh; minute := mm; second := ss;
                       microsecond := us; tzinfo := tz |}
          else None
      end
  end end end end end.

(** [n] in decimal, padded with zeros to [width] digits. *)
Definition zero_pad (width : nat) (n : Z) : string :=
  let digits := str_of_Z n in
  (string_of_list_ascii (repeat "0"%char (width - String.length digits))
   ++ digits)%string.

(** The fraction of a second, printed only when it is not zero. *)
Definition format_fraction (us : Z) : string :=
  if Z.eqb us 0 then EmptyString else ("." ++ zero_pad 6 us)%string.

(** The UTC offset of an aware datetime: sign, hours and minutes, and the
    seconds only when they are not zero. *)
Definition format_offset (tz : option Z) : string :=
  match tz with
  | None => EmptyString
  | Some off =>
      let a := Z.abs off in
      let hh := Z.div a 3600000000 in
      let mm := Z.div (Z.modulo a 3600000000) 60000000 in
      let ss := Z.div (Z.modulo a 60000000) 1000000 in
      let us := Z.modulo a 1000000 in
      let sign := if Z.ltb off 0 then "-" else "+" in
      let tail :=
        if (Z.eqb ss 0 && Z.eqb us 0)%bool then EmptyString
        else (":" ++ zero_pad 2 ss ++ format_fraction us)%string in
      (sign ++ zero_pad 2 hh ++ ":" ++ zero_pad 2 mm ++ tail)%string
  end.

(** [dt.isoformat()]. *)
Definition isoformat (t : datetime) : string :=
  (zero_pad 4 (year t) ++ "-" ++ zero_pad 2 (month t) ++ "-"
   ++ zero_pad 2 (day t) ++ "T" ++ zero_pad 2 (hour t) ++ ":"
   ++ zero_pad 2 (minute t) ++ ":" ++ zero_pad 2 (second t)
   ++ format_fraction (microsecond t) ++ format_offset (tzinfo t))%string.

End PyLib.

(* ================================================================== *)
(** ** Vocabulary of the statements *)

(** The comparison [sorted] makes on two call events. *)
Definition ev_lt (x y : call_event) : result bool :=
  dt_lt (event_ts x) (event_ts y).

(** Ascending in time. *)
Definition ev_le (x y : call_event) : Prop :=
  instant (event_ts x) <= instant (event_ts y).

(** All timestamps of the list are aware, or all are naive: [b] says
    which. *)
Definition kind_is (b : bool) (l : list call_event) : Prop :=
  Forall (fun e => aware (event_ts e) = b) l.

(** The decidable form: the timestamps can be ordered pairwise. *)
Definition comparable_timestamps (l : list call_event) : bool :=
  (forallb (fun e => aware (event_ts e)) l
   || forallb (fun e => negb (aware (event_ts e))) l)%bool.

(** The list is in ascending order of time. *)
Inductive ascending : list call_event -> Prop :=
| asc_nil : ascending []
| asc_cons x l : Forall (ev_le x) l -> ascending l -> ascending (x :: l).

(** [s] pairs a start event and an end event of [all]: the start is not
    later than the end, both timestamps are of one kind, and the session
    carries the start event's context, or the placeholder when it is
    falsy. *)
Definition pairs_events (all : list call_event) (s : session) : Prop :=
  exists et ctx et' ctx',
    In (et, start s, ctx) all /\ str_in et CALL_START_EVENTS = true /\
    In (et', end_ s, ctx') all /\ str_in et' CALL_END_EVENTS = true /\
    server s = py_or ctx (VStr "Unknown/DM") /\
    aware (start s) = aware (end_ s) /\
    instant (start s) <= instant (end_ s) /\
    duration_sec s = total_seconds (instant (end_ s) - instant (start s)).

(** A stack entry is a start event of [all] that is not later than any
    event still to come. *)
Definition open_start (all events : list call_event)
    (st : datetime * value) : Prop :=
  (exists et, In (et, fst st, snd st) all
              /\ str_in et CALL_START_EVENTS = true)
  /\ Forall (fun e => instant (fst st) <= instant (event_ts e)) events.

(** Strictly earlier. *)
Definition ev_before (x y : call_event) : Prop :=
  instant (event_ts x) < instant (event_ts y).

(** [c[key]]: the count of [key], zero when it has none. *)
Fixpoint counter_get (key : value) (c : Counter) : Z :=
  match c with
  | [] => 0
  | (k, n) :: rest => if key_eqb k key then n else counter_get key rest
  end.



Definition entry_a : value * Z := (VStr "a", 5).
Definition entry_b : value * Z := (VStr "b", 5).
Definition entry_c : value * Z := (VStr "c", 3).

(** The value of [record.get(key)] for a decoded object. *)
Definition field (d : list (string * value)) (key : string) : value :=
  match dict_get d key with Some v => v | None => VNone end.

(** The line decodes to an object whose [event_type] is truthy: the lines
    the loop counts. *)
Definition counted_line (json_loads : string -> option value)
    (line : string) : bool :=
  match json_loads line with
  | Some (VDict d) => truthy (field d "event_type")
  | _ => false
  end.

(** The line decodes to an object that has an [event_type] key. *)
Definition bears_event_type (json_loads : string -> option value)
    (line : string) : bool :=
  match json_loads line with
  | Some (VDict d) =>
      match dict_get d "event_type" with Some _ => true | None => false end
  | _ => false
  end.

(** The number of lines that satisfy [p]. *)
Definition count_lines (p : string -> bool) (lines : list string) : Z :=
  Z.of_nat (List.length (filter p lines)).

(* ================================================================== *)
(** ** Sample data *)

(** JSON text is written below with single quotes for double quotes. *)
Fixpoint dq (s : string) : string :=
  match s with
  | EmptyString => EmptyString
  | String c r => String (if Ascii.eqb c "'"%char then dquote else c) (dq r)
  end.

(** A time of day on 2021-03-04, in UTC and without time zone. *)
Definition utc_time (h m s us : Z) : datetime :=
  mk_datetime 2021 3 4 h m s us (Some 0).
Definition naive_time (h m s us : Z) : datetime :=
  mk_datetime 2021 3 4 h m s us None.

Definition t0 : datetime := utc_time 12 0 0 0.
Definition t1 : datetime := utc_time 12 5 0 0.
Definition t2 : datetime := utc_time 12 30 0 0.
Definition t3 : datetime := utc_time 13 0 0 0.

(** A call joined twice before it is left twice. *)
Definition nested_calls : list call_event :=
  [ ("join_call", t0, VStr "guild-1");
    ("voice_connection_success", t1, VStr "guild-1");
    ("voice_disconnect", t2, VStr "guild-1");
    ("voice_disconnect", t3, VNone) ].

(** A call in a direct message, left in the instant it was joined. *)
Definition instant_call : list call_event :=
  [ ("join_call", t0, VStr EmptyString); ("voice_disconnect", t0, VNone) ].

Definition instant_session : session :=
  {| start := t0; end_ := t0; server := VStr "Unknown/DM";
     duration_sec := 0 # 1000000 |}.



(** A start without time zone and an end in UTC. *)
Definition mixed_calls : list call_event :=
  [ ("join_call", naive_time 12 0 0 0, VStr "42");
    ("voice_disconnect", utc_time 12 30 0 0, VStr "42") ].

Definition line_join : string :=
  dq ("{'event_type': 'join_call', "
      ++ "'timestamp': '2021-03-04T12:00:00.000000+00:00', "
      ++ "'guild_id': '42'}").
Definition line_garbage : string := "not json".
Definition line_message : string :=
  dq ("{'event_type': 'send_message', "
      ++ "'timestamp': '\'2021-03-04T12:10:00.250Z\'', "
      ++ "'channel': '7', 'length': 12, 'word_count': 3}").
Definition line_disconnect : string :=
  dq ("{'event_type': 'voice_disconnect', "
      ++ "'timestamp': '2021-03-04T12:30:00.500000+00:00'}").
Definition line_empty_type : string := dq "{'event_type': ''}".
Definition line_no_timestamp : string := dq "{'event_type': 'app_opened'}".
Definition line_no_type : string :=
  dq "{'timestamp': '2021-03-04T12:00:00+00:00'}".
Definition line_bad_timestamp : string :=
  dq "{'event_type': 'join_call', 'timestamp': 'yesterday'}".
Definition line_empty_type_dated : string :=
  dq "{'event_type': '', 'timestamp': '2021-03-04T12:00:00+00:00'}".

Definition line_join_naive : string :=
  dq ("{'event_type': 'join_call', "
      ++ "'timestamp': '2021-03-04T12:00:00', 'guild_id': '42'}").
Definition line_disconnect_utc : string :=
  dq ("{'event_type': 'voice_disconnect', "
      ++ "'timestamp': '2021-03-04T12:30:00Z', 'guild_id': '42'}").

Definition sample_lines : list string :=
  [ line_join; line_garbage; line_message; line_disconnect;
    line_empty_type; line_no_timestamp; line_no_type ].

(* ================================================================== *)
(** ** The report files and [main] *)

(** [str(v)] as an f-string prints a decoded value: a string as it is,
    an integer in decimal, [True], [False] and [None] by name.  How a
    float, a list or a dict prints is left to [fmt_other]. *)
Definition py_format (fmt_other : value -> string) (v : value) : string :=
  match v with
  | VStr s => s
  | VInt z => str_of_Z z
  | VBool true => "True"
  | VBool false => "False"
  | VNone => "None"
  | _ => fmt_other v
  end.

(** The end of a line. *)
Definition newline : string := String "010"%char EmptyString.

(** The groups of [totals] in [main]: for each server, in the order the
    servers are first met, the durations added to its total.  (The float
    total is their sum in that order.)  A server that cannot be hashed
    raises [TypeError]. *)
Fixpoint totals_add (key : value) (dur : Q) (t : list (value * list Q))
  : list (value * list Q) :=
  match t with
  | [] => [(key, [dur])]
  | (k, ds) :: rest =>
      if key_eqb k key then (k, ds ++ [dur]) :: rest
      else (k, ds) :: totals_add key dur rest
  end.

Fixpoint totals_loop (sessions : list session) (t : list (value * list Q))
  : result (list (value * list Q)) :=
  match sessions with
  | [] => Ok t
  | s :: rest =>
      if hashable (server s)
      then totals_loop rest (totals_add (server s) (duration_sec s) t)
      else Raise TypeError
  end.

(** A file written to the working directory, with what was written. *)
Inductive report : Type :=
| Calls_csv (rows : list csv_row)
| Calls_json (rows : list json_row)
| Messages_txt (lines : list string)
| Event_counts_txt (lines : list string).

Section Reports.
Variable json_loads : string -> option value.
Variable fromisoformat : string -> option datetime.
Variable isoformat : datetime -> string.
(** [dt.strftime] with the format of the messages log. *)
Variable strftime : datetime -> string.
Variable fmt_other : value -> string.

(** The line of one message. *)
Definition message_line (m : message) : string :=
  ("[" ++ strftime (timestamp m) ++ "] Channel "
   ++ py_format fmt_other (channel m) ++ " — Len: "
   ++ py_format fmt_other (length_ m) ++ ", Words: "
   ++ py_format fmt_other (word_count m) ++ newline)%string.

(** [export_messages_log]: the strings written to the file. *)
Definition export_messages_log (msgs : list message) : list string :=
  ("--- Sent Messages Log ---" ++ newline ++ newline)%string
  :: map message_line msgs.

(** The line of one event type. *)
Definition event_count_line (entry : value * Z) : string :=
  (py_format fmt_other (fst entry) ++ ": " ++ str_of_Z (snd entry)
   ++ newline)%string.

(** [export_event_counts]: the strings written to the file. *)
Definition export_event_counts (counts : Counter) : result (list string) :=
  ranked <- most_common_all counts ;;
  Ok (map event_count_line ranked).

(** The call section of [main]: the files it writes. *)
Definition call_reports (sessions : list session) : result (list report) :=
  match sessions with
  | [] => Ok []
  | _ =>
      sessions_sorted <-
        sorted_desc (fun x y => dt_lt (start x) (start y)) sessions ;;
      _ <- totals_loop sessions_sorted [] ;;
      let '(csv, js) := export_call_sessions isoformat sessions_sorted in
      Ok [Calls_csv csv; Calls_json js]
  end.

(** [main] on the file the user names: [None] when the path is not a
    file, else its lines.  The result is the list of files written, in
    order, and how the run ended.  What is printed to the console is not
    part of it, and writing a file is taken to succeed. *)
Definition main (file : option (list string)) : list report * result unit :=
  match file with
  | None => ([], Ok tt)
  | Some lines =>
      match analyze_file json_loads fromisoformat lines with
      | Raise e => ([], Raise e)
      | Ok data =>
          match pair_call_events (call_events data) with
          | Raise e => ([], Raise e)
          | Ok sessions =>
              match call_reports sessions with
              | Raise e => ([], Raise e)
              | Ok calls =>
                  let msgs :=
                    match messages data with
                    | [] => []
                    | _ => [Messages_txt (export_messages_log (messages data))]
                    end in
                  match most_common 10 (event_counts data) with
                  | Raise e => (calls ++ msgs, Raise e)
                  | Ok _ =>
                      match export_event_counts (event_counts data) with
                      | Raise e => (calls ++ msgs, Raise e)
                      | Ok lines' =>
                          (calls ++ msgs ++ [Event_counts_txt lines'], Ok tt)
                      end
                  end
              end
          end
      end
  end.

End Reports.

(** [event_counts.get(STREAM_START_EVENT, 0)] in [main]. *)
Definition stream_count (data : analysis) : Z :=
  counter_get (VStr STREAM_START_EVENT) (event_counts data).

(* ================================================================== *)
(** ** More vocabulary *)

(** Largest first by [rank]. *)
Definition descending_by {A : Type} (rank : A -> Z) : list A -> Prop :=
  StronglySorted (fun x y => rank y <= rank x).

(** [c in s]. *)
Fixpoint contains_char (c : ascii) (s : string) : bool :=
  match s with
  | EmptyString => false
  | String a r => (Ascii.eqb a c || contains_char c r)%bool
  end.

(** The first and the last character of a string, if it has one. *)
Definition first_char (s : string) : option ascii :=
  match s with
  | EmptyString => None
  | String a _ => Some a
  end.

Fixpoint last_char (s : string) : option ascii :=
  match s with
  | EmptyString => None
  | String a EmptyString => Some a
  | String _ r => last_char r
  end.

Definition event_type_of (e : call_event) : string := fst (fst e).
Definition context_of (e : call_event) : value := snd e.

Definition is_start (e : call_event) : bool :=
  str_in (event_type_of e) CALL_START_EVENTS.
Definition is_end (e : call_event) : bool :=
  str_in (event_type_of e) CALL_END_EVENTS.

(** The number of events that satisfy [p]. *)
Definition count_events (p : call_event -> bool) (l : list call_event) : nat :=
  List.length (filter p l).

(** The times of the events on the time line. *)
Definition instants (l : list call_event) : list Z :=
  map (fun e => instant (event_ts e)) l.

(** The event with its context replaced by [g e], unless it is a start
    event. *)
Definition recontext (g : call_event -> value) (e : call_event)
  : call_event :=
  if is_start e then e else (event_type_of e, event_ts e, g e).

(** The stack entry a start event is pushed as. *)
Definition stack_entry (e : call_event) : datetime * value :=
  (event_ts e, context_of e).

(** The session that the end event [en] closes for the start event
    [st]. *)
Definition close_session (st en : call_event) : session :=
  {| start := event_ts st;
     end_ := event_ts en;
     server := py_or (context_of st) (VStr "Unknown/DM");
     duration_sec :=
       total_seconds (instant (event_ts en) - instant (event_ts st)) |}.

(** The [event_type] of the object a line decodes to, [None] without
    one. *)
Definition line_event_type (json_loads : string -> option value)
    (line : string) : value :=
  match json_loads line with
  | Some (VDict d) => field d "event_type"
  | _ => VNone
  end.

(** An entry of a counter that the loop can have made: a truthy,
    hashable key with a count of at least one. *)
Definition sound_entry (kv : value * Z) : Prop :=
  truthy (fst kv) = true /\ hashable (fst kv) = true /\ 1 <= snd kv.

(** What the loop keeps true of its two lists. *)
Definition lists_sound (st : analysis) : Prop :=
  Forall (fun e => is_start e = true \/ is_end e = true) (call_events st)
  /\ Z.of_nat (List.length (call_events st) + List.length (messages st))
     <= counter_total (event_counts st).

(** Every timestamp the loop has collected is of kind [kind]. *)
Definition kinds_are (kind : bool) (st : analysis) : Prop :=
  kind_is kind (call_events st)
  /\ Forall (fun m => aware (timestamp m) = kind) (messages st).

(** The time of a message on the time line. *)
Definition message_rank (m : message) : Z := instant (timestamp m).

(** The start of a session on the time line. *)
Definition session_rank (s : session) : Z := instant (start s).

(** The line decodes to an object whose [event_type] is the non-empty
    string [name]. *)
Definition has_event_type (json_loads : string -> option value)
    (name : string) (line : string) : bool :=
  match json_loads line with
  | Some (VDict d) =>
      (truthy (field d "event_type")
       && py_eqb (field d "event_type") (VStr name))%bool
  | _ => false
  end.

(** A line the loop reads without raising, every timestamp of kind
    [kind]: [json.loads] raises [JSONDecodeError] on it, or returns an
    object whose [event_type] is falsy, or hashable with a [timestamp]
    that is falsy or a string [fromisoformat] accepts.  (A line on which
    [json.loads] raises anything else is not such a line.) *)
Definition well_formed_line (json_loads : string -> option value)
    (fromisoformat : string -> option datetime) (kind : bool)
    (line : string) : Prop :=
  match json_loads line with
  | None => True
  | Some (VDict d) =>
      truthy (field d "event_type") = false
      \/ (hashable (field d "event_type") = true
          /\ (truthy (field d "timestamp") = false
              \/ exists s dt,
                   field d "timestamp" = VStr s
                   /\ fromisoformat (replace "Z"%char "+00:00"
                                       (strip dquote s)) = Some dt
                   /\ aware dt = kind))
  | Some _ => False
  end.

(** The same, as a test that can be run on a line. *)
Definition well_formed_lineb (json_loads : string -> option value)
    (fromisoformat : string -> option datetime) (kind : bool)
    (line : string) : bool :=
  match json_loads line with
  | None => true
  | Some (VDict d) =>
      (negb (truthy (field d "event_type"))
       || (hashable (field d "event_type")
           && (negb (truthy (field d "timestamp"))
               || match field d "timestamp" with
                  | VStr s =>
                      match fromisoformat (replace "Z"%char "+00:00"
                                             (strip dquote s)) with
                      | Some dt => Bool.eqb (aware dt) kind
                      | None => false
                      end
                  | _ => false
                  end)))%bool
  | Some _ => false
  end.

(* ================================================================== *)
(** ** More sample data *)

(** [strftime] with the format of the messages log, for years of four
    digits. *)
Definition sample_strftime (t : datetime) : string :=
  (PyLib.zero_pad 4 (year t) ++ "-" ++ PyLib.zero_pad 2 (month t) ++ "-"
   ++ PyLib.zero_pad 2 (day t) ++ " " ++ PyLib.zero_pad 2 (hour t) ++ ":"
   ++ PyLib.zero_pad 2 (minute t) ++ ":" ++ PyLib.zero_pad 2 (second t))%string.

(** A stand-in for the printing of floats, lists and dicts; the samples
    print none. *)
Definition sample_fmt_other (v : value) : string := "?".

(** The sessions of [nested_calls]. *)
Definition nested_sessions : list session :=
  [ {| start := t1; end_ := t2; server := VStr "guild-1";
       duration_sec := 1500000000 # 1000000 |};
    {| start := t0; end_ := t3; server := VStr "guild-1";
       duration_sec := 3600000000 # 1000000 |} ].

Definition line_list : string := "[1, 2]".
Definition line_list_type : string := dq "{'event_type': ['a']}".
Definition line_number_timestamp : string :=
  dq "{'event_type': 'join_call', 'timestamp': 5}".
Definition line_join_list_guild : string :=
  dq ("{'event_type': 'join_call', "
      ++ "'timestamp': '2021-03-04T12:00:00.000000+00:00', "
      ++ "'guild_id': ['x']}").
Definition line_null_timestamp : string :=
  dq "{'event_type': 'join_call', 'timestamp': null}".

Definition line_message_later : string :=
  dq ("{'event_type': 'send_message', "
      ++ "'timestamp': '2021-03-04T12:20:00+00:00', "
      ++ "'channel': '8', 'length': 5, 'word_count': 1}").

(** The two messages of [line_message] and [line_message_later]. *)
Definition message_early : message :=
  {| timestamp := utc_time 12 10 0 250000; channel := VStr "7";
     length_ := VInt 12; word_count := VInt 3 |}.
Definition message_late : message :=
  {| timestamp := utc_time 12 20 0 0; channel := VStr "8";
     length_ := VInt 5; word_count := VInt 1 |}.

(** What [analyze_file] returns on the earlier message followed by the
    later one. *)
Definition two_messages_data : analysis :=
  {| event_counts := [(VStr "send_message", 2)];
     call_events := [];
     messages := [message_late; message_early] |}.

(** What [analyze_file] returns on [sample_lines]. *)
Definition sample_data : analysis :=
  {| event_counts :=
       [ (VStr "join_call", 1); (VStr "send_message", 1);
         (VStr "voice_disconnect", 1); (VStr "app_opened", 1) ];
     call_events :=
       [ ("join_call", utc_time 12 0 0 0, VStr "42");
         ("voice_disconnect", utc_time 12 30 0 500000, VNone) ];
     messages :=
       [ {| timestamp := utc_time 12 10 0 250000;
            channel := VStr "7";
            length_ := VInt 12;
            word_count := VInt 3 |} ] |}.

(** The reports [main] writes on [sample_lines]. *)
Definition sample_log : list report :=
  fst (main PyLib.json_loads PyLib.fromisoformat PyLib.isoformat
         sample_strftime sample_fmt_other (Some sample_lines)).

(* ================================================================== *)
(** * Properties *)

(** ** The result monad *)

Lemma bind_Ok_inv {A B : Type} (m : result A) (k : A -> result B) (b : B) :
  bind m k = Ok b -> exists a, m = Ok a /\ k a = Ok b.
Proof.
  destruct m as [a | e]; simpl; intros H.
  - exists a; split; [reflexivity | exact H].
  - discriminate H.
Qed.

Tactic Notation "inv_bind" hyp(H) "as" ident(a) ident(Ha) :=
  apply bind_Ok_inv in H; destruct H as [a [Ha H]].

(** ** Comparing datetimes *)

Lemma dt_lt_Ok (a b : datetime) (r : bool) :
  dt_lt a b = Ok r -> aware a = aware b /\ r = (instant a <? instant b).
Proof.
  unfold dt_lt. destruct (Bool.eqb (aware a) (aware b)) eqn:E; intros H.
  - apply eqb_prop in E. inversion H. split; [exact E | reflexivity].
  - discriminate H.
Qed.

Lemma dt_lt_same (a b : datetime) :
  aware a = aware b -> dt_lt a b = Ok (instant a <? instant b).
Proof.
  intros E. unfold dt_lt. rewrite E, eqb_reflx. reflexivity.
Qed.

Lemma dt_sub_same (a b : datetime) :
  aware a = aware b -> dt_sub a b = Ok (instant a - instant b).
Proof.
  intros E. unfold dt_sub. rewrite E, eqb_reflx. reflexivity.
Qed.

Lemma dt_sub_Ok (a b : datetime) (td : Z) :
  dt_sub a b = Ok td -> aware a = aware b /\ td = instant a - instant b.
Proof.
  unfold dt_sub. destruct (Bool.eqb (aware a) (aware b)) eqn:E; intros H.
  - apply eqb_prop in E. inversion H. split; [exact E | reflexivity].
  - discriminate H.
Qed.

(** ** Sorting call events by timestamp *)

Create HintDb pairing.
#[local] Hint Constructors ascending : pairing.
#[local] Hint Constructors Forall : pairing.

Lemma comparable_kind (l : list call_event) :
  comparable_timestamps l = true <-> exists b, kind_is b l.
Proof.
  unfold comparable_timestamps, kind_is. split.
  - intros H. apply orb_true_iff in H. destruct H as [H | H].
    + exists true. apply Forall_forall. intros e He.
      rewrite forallb_forall in H. apply H. exact He.
    + exists false. apply Forall_forall. intros e He.
      rewrite forallb_forall in H. apply H in He.
      destruct (aware (event_ts e)); [discriminate He | reflexivity].
  - intros [b H]. rewrite Forall_forall in H. apply orb_true_iff.
    destruct b.
    + left. apply forallb_forall. exact H.
    + right. apply forallb_forall. intros e He. rewrite (H e He). reflexivity.
Qed.

Lemma insert_asc_total (b : bool) (x : call_event) (l : list call_event) :
  aware (event_ts x) = b -> kind_is b l ->
  exists r, insert_asc ev_lt x l = Ok r.
Proof.
  intros Hx Hl. induction Hl as [| y l Hy Hl IH].
  - exists [x]. reflexivity.
  - simpl. unfold ev_lt at 1. rewrite dt_lt_same by congruence. simpl.
    destruct (instant (event_ts y) <? instant (event_ts x)).
    + destruct IH as [r Hr]. rewrite Hr. simpl. eauto.
    + eauto.
Qed.

Lemma insert_asc_spec (x : call_event) (l r : list call_event) :
  insert_asc ev_lt x l = Ok r ->
  ascending l ->
  (forall b, kind_is b l -> l <> [] -> aware (event_ts x) = b)
  /\ Permutation (x :: l) r
  /\ ascending r.
Proof.
  revert r. induction l as [| y l IH]; intros r H Hasc.
  - simpl in H. inversion H; subst. repeat split.
    + intros b _ Hne. contradiction Hne. reflexivity.
    + apply Permutation_refl.
    + auto with pairing.
  - simpl in H. inv_bind H as c Ha. apply dt_lt_Ok in Ha.
    destruct Ha as [Hk Hlt]. subst c.
    inversion Hasc as [| y' l' Hy Hl]; subst.
    assert (Hkind : forall b, kind_is b (y :: l) -> y :: l <> [] ->
                              aware (event_ts x) = b).
    { intros b Hb _. inversion Hb; subst. symmetry. exact Hk. }
    destruct (instant (event_ts y) <? instant (event_ts x)) eqn:E.
    + inv_bind H as r' Hr'. inversion H; subst.
      destruct (IH r' Hr' Hl) as [_ [Hp Hs]].
      repeat split; [exact Hkind | |].
      * apply perm_trans with (y :: x :: l); [apply perm_swap |].
        apply perm_skip. exact Hp.
      * constructor; [| exact Hs].
        apply (Permutation_Forall Hp).
        constructor; [| exact Hy].
        unfold ev_le. apply Z.ltb_lt in E. lia.
    + inversion H; subst. repeat split; [exact Hkind | apply Permutation_refl |].
      apply Z.ltb_ge in E.
      constructor; [| exact Hasc].
      constructor; [exact E |].
      eapply Forall_impl; [| exact Hy].
      intros e He. unfold ev_le in *. lia.
Qed.

(** A successful sort returns the events in ascending order of time, and
    it succeeds only on timestamps of one kind. *)
Lemma sorted_asc_spec (l r : list call_event) :
  sorted_asc ev_lt l = Ok r ->
  Permutation l r /\ ascending r /\ exists b, kind_is b l.
Proof.
  revert r. induction l as [| x l IH]; intros r H.
  - simpl in H. inversion H; subst.
    repeat split; [apply perm_nil | constructor | exists true; constructor].
  - simpl in H. inv_bind H as a Ha. destruct (IH a Ha) as [Hp [Hs [b Hb]]].
    destruct (insert_asc_spec x a r H Hs) as [Hk [Hp' Hs']].
    repeat split.
    + apply perm_trans with (x :: a); [apply perm_skip; exact Hp | exact Hp'].
    + exact Hs'.
    + destruct l as [| y l].
      * exists (aware (event_ts x)). constructor; [reflexivity | constructor].
      * exists b. constructor; [| exact Hb].
        apply Hk.
        -- eapply Permutation_Forall; [exact Hp | exact Hb].
        -- intros ->. apply Permutation_sym, Permutation_nil in Hp.
           discriminate Hp.
Qed.

(** On timestamps of one kind the sort succeeds. *)
Lemma sorted_asc_total (b : bool) (l : list call_event) :
  kind_is b l -> exists r, sorted_asc ev_lt l = Ok r.
Proof.
  intros Hl. induction Hl as [| x l Hx Hl IH].
  - exists []. reflexivity.
  - destruct IH as [s Hs]. simpl. rewrite Hs. simpl.
    apply insert_asc_total with (b := b); [exact Hx |].
    destruct (sorted_asc_spec l s Hs) as [Hp _].
    eapply Permutation_Forall; [exact Hp | exact Hl].
Qed.

(** ** The pairing loop *)

#[local] Arguments str_in : simpl never.

Lemma open_start_tail all e events st :
  open_start all (e :: events) st -> open_start all events st.
Proof.
  intros [H1 H2]. split; [exact H1 |]. inversion H2; assumption.
Qed.

Lemma pair_loop_sessions (all : list call_event) :
  forall events stack sessions res,
    ascending events ->
    incl events all ->
    Forall (open_start all events) stack ->
    Forall (pairs_events all) sessions ->
    pair_loop events stack sessions = Ok res ->
    Forall (pairs_events all) res.
Proof.
  induction events as [| [[et ts] ctx] rest IH];
    intros stack sessions res Hasc Hincl Hstack Hsess H.
  - simpl in H. inversion H; subst. exact Hsess.
  - inversion Hasc as [| e' l' Hhd Hrest]; subst.
    assert (Hincl' : incl rest all).
    { intros e He. apply Hincl. right. exact He. }
    assert (Hstack' : Forall (open_start all rest) stack).
    { eapply Forall_impl; [| exact Hstack].
      intros st. apply open_start_tail. }
    simpl in H.
    destruct (str_in et CALL_START_EVENTS) eqn:Es.
    + apply IH in H; try assumption.
      constructor; [| exact Hstack'].
      split.
      * exists et. split; [| exact Es]. apply Hincl. left. reflexivity.
      * exact Hhd.
    + destruct (str_in et CALL_END_EVENTS) eqn:Ee.
      * destruct stack as [| [start_ts start_ctx] stack'].
        -- apply IH in H; assumption.
        -- inv_bind H as td Htd. apply dt_sub_Ok in Htd.
           destruct Htd as [Hk Htd]. subst td.
           inversion Hstack as [| st l Hst Hl]; subst.
           inversion Hstack' as [| st l Hst' Hl']; subst.
           apply IH in H; try assumption.
           apply Forall_app. split; [exact Hsess |].
           constructor; [| constructor].
           destruct Hst as [[et0 [Hin0 Es0]] Hle].
           inversion Hle as [| e0 l0 Hle0 _]; subst.
           exists et0, start_ctx, et, ctx. simpl in *.
           repeat split; try assumption; try reflexivity.
           ++ apply Hincl. left. reflexivity.
           ++ symmetry. exact Hk.
      * apply IH in H; assumption.
Qed.

Lemma pair_loop_total (b : bool) :
  forall events stack sessions,
    kind_is b events ->
    Forall (fun st => aware (fst st) = b) stack ->
    exists res, pair_loop events stack sessions = Ok res.
Proof.
  induction events as [| [[et ts] ctx] rest IH];
    intros stack sessions Hk Hstack.
  - exists sessions. reflexivity.
  - apply Forall_cons_iff in Hk. destruct Hk as [Hts Hrest].
    unfold event_ts in Hts. simpl in Hts. simpl.
    destruct (str_in et CALL_START_EVENTS).
    + apply IH; [exact Hrest |]. constructor; [exact Hts | exact Hstack].
    + destruct (str_in et CALL_END_EVENTS).
      * destruct stack as [| [start_ts start_ctx] stack'].
        -- apply IH; assumption.
        -- apply Forall_cons_iff in Hstack. destruct Hstack as [Hst Hl].
           simpl in Hst. rewrite dt_sub_same by congruence. simpl.
           apply IH; assumption.
      * apply IH; assumption.
Qed.

(** Every session [pair_call_events] returns pairs two of its input
    events. *)
Lemma pair_call_events_sessions (events : list call_event)
    (sessions : list session) :
  pair_call_events events = Ok sessions ->
  Forall (pairs_events events) sessions.
Proof.
  unfold pair_call_events. intros H. inv_bind H as sorted_ev Hsort.
  destruct (sorted_asc_spec events sorted_ev Hsort) as [Hp [Hasc _]].
  eapply pair_loop_sessions; [exact Hasc | | constructor | constructor | exact H].
  intros e He. eapply Permutation_in; [apply Permutation_sym; exact Hp | exact He].
Qed.

(** [pair_call_events] returns exactly when the timestamps can be
    ordered. *)
Lemma pair_call_events_returns (events : list call_event) :
  comparable_timestamps events = true <->
  exists sessions, pair_call_events events = Ok sessions.
Proof.
  split.
  - intros H. apply comparable_kind in H. destruct H as [b Hb].
    destruct (sorted_asc_total b events Hb) as [r Hr].
    unfold pair_call_events. fold ev_lt. rewrite Hr. simpl.
    apply pair_loop_total with (b := b); [| constructor].
    destruct (sorted_asc_spec events r Hr) as [Hp _].
    eapply Permutation_Forall; [exact Hp | exact Hb].
  - intros [sessions H]. unfold pair_call_events in H.
    inv_bind H as r Hr. apply comparable_kind.
    destruct (sorted_asc_spec events r Hr) as [_ [_ Hk]]. exact Hk.
Qed.

Lemma total_seconds_nonneg (td : Z) : 0 <= td -> (0 <= total_seconds td)%Q.
Proof.
  intros H. unfold total_seconds, Qle. simpl. lia.
Qed.

(** ** Claims on [pair_call_events] *)

(** C6.  Every session emitted by [pair_call_events] has [start <= end]
    and so a non-negative [duration_sec]; when [start == end] the
    duration is zero and [format_duration] renders it as 0h 0m 0s. *)
Theorem pair_call_events_start_le_end
    (events : list call_event) (sessions : list session) :
  pair_call_events events = Ok sessions ->
  Forall (fun s =>
            dt_le (start s) (end_ s) = Ok true
            /\ (0 <= duration_sec s)%Q
            /\ (dt_eqb (start s) (end_ s) = true ->
                (duration_sec s == 0)%Q
                /\ format_duration (duration_sec s) = "0h 0m 0s"))
         sessions.
Proof.
  intros H. apply pair_call_events_sessions in H.
  eapply Forall_impl; [| exact H].
  intros s (et & ctx & et' & ctx' & _ & _ & _ & _ & _ & Hk & Hle & Hdur).
  split; [| split].
  - unfold dt_le. rewrite Hk, eqb_reflx.
    apply Z.leb_le in Hle. rewrite Hle. reflexivity.
  - rewrite Hdur. apply total_seconds_nonneg. lia.
  - intros E. unfold dt_eqb in E. apply andb_true_iff in E.
    destruct E as [_ E]. apply Z.eqb_eq in E.
    rewrite Hdur, E, Z.sub_diag. split; reflexivity.
Qed.

(** C9.  The [server] of an emitted session is the context of the start
    event it was opened by, and the placeholder Unknown/DM whenever that
    context is falsy: [None], the empty string, or any other falsy
    value. *)
Theorem pair_call_events_server_falsy_context
    (events : list call_event) (sessions : list session) :
  pair_call_events events = Ok sessions ->
  Forall (fun s =>
            exists et ctx,
              In (et, start s, ctx) events
              /\ str_in et CALL_START_EVENTS = true
              /\ server s = py_or ctx (VStr "Unknown/DM")
              /\ (ctx = VNone \/ ctx = VStr EmptyString
                  \/ truthy ctx = false ->
                  server s = VStr "Unknown/DM"))
         sessions.
Proof.
  intros H. apply pair_call_events_sessions in H.
  eapply Forall_impl; [| exact H].
  intros s (et & ctx & et' & ctx' & Hin & Hs & _ & _ & Hsrv & _).
  exists et, ctx. repeat split; try assumption.
  intros Hf. rewrite Hsrv. unfold py_or.
  destruct Hf as [-> | [-> | Hf]]; [reflexivity | reflexivity |].
  rewrite Hf. reflexivity.
Qed.

(** A sequence raises in its first part or in what follows it. *)
Lemma bind_Raise_inv {A B : Type} (m : result A) (k : A -> result B)
    (e : exn) :
  bind m k = Raise e -> m = Raise e \/ exists a, m = Ok a /\ k a = Raise e.
Proof.
  destruct m as [a | e']; simpl; intros H.
  - right. exists a. split; [reflexivity | exact H].
  - left. inversion H. reflexivity.
Qed.

Lemma dt_lt_Raise (a b : datetime) (e : exn) :
  dt_lt a b = Raise e -> e = TypeError.
Proof.
  unfold dt_lt. destruct (Bool.eqb (aware a) (aware b)); intros H;
    inversion H; reflexivity.
Qed.

Lemma dt_sub_Raise (a b : datetime) (e : exn) :
  dt_sub a b = Raise e -> e = TypeError.
Proof.
  unfold dt_sub. destruct (Bool.eqb (aware a) (aware b)); intros H;
    inversion H; reflexivity.
Qed.

Lemma insert_asc_Raise (x : call_event) (l : list call_event) (e : exn) :
  insert_asc ev_lt x l = Raise e -> e = TypeError.
Proof.
  induction l as [| y l IH]; simpl; intros H; [discriminate H |].
  apply bind_Raise_inv in H. destruct H as [H | [b [_ H]]].
  - apply dt_lt_Raise in H. exact H.
  - destruct b; [| discriminate H].
    apply bind_Raise_inv in H. destruct H as [H | [r [_ H]]];
      [apply IH; exact H | discriminate H].
Qed.

Lemma sorted_asc_Raise (l : list call_event) (e : exn) :
  sorted_asc ev_lt l = Raise e -> e = TypeError.
Proof.
  induction l as [| x l IH]; simpl; intros H; [discriminate H |].
  apply bind_Raise_inv in H. destruct H as [H | [s [_ H]]].
  - apply IH. exact H.
  - apply insert_asc_Raise in H. exact H.
Qed.

Lemma pair_loop_Raise (e : exn) :
  forall events stack sessions,
    pair_loop events stack sessions = Raise e -> e = TypeError.
Proof.
  induction events as [| [[et ts] ctx] rest IH]; intros stack sessions H;
    simpl in H; [discriminate H |].
  destruct (str_in et CALL_START_EVENTS); [apply IH in H; exact H |].
  destruct (str_in et CALL_END_EVENTS); [| apply IH in H; exact H].
  destruct stack as [| [start_ts start_ctx] stack'];
    [apply IH in H; exact H |].
  apply bind_Raise_inv in H. destruct H as [H | [td [_ H]]].
  - apply dt_sub_Raise in H. exact H.
  - apply IH in H. exact H.
Qed.

(** The only exception [pair_call_events] lets out is the [TypeError] of
    a comparison or subtraction of datetimes. *)
Lemma pair_call_events_Raise (events : list call_event) (e : exn) :
  pair_call_events events = Raise e -> e = TypeError.
Proof.
  unfold pair_call_events. intros H.
  apply bind_Raise_inv in H. destruct H as [H | [s [_ H]]].
  - apply sorted_asc_Raise in H. exact H.
  - apply pair_loop_Raise in H. exact H.
Qed.

(** C7, as the code has it.  [pair_call_events] returns, without raising,
    when its timestamps are all aware or all naive, and raises [TypeError]
    when both kinds are present; a lone end event and a lone start event
    both give no session. *)
Theorem pair_call_events_drops_unmatched :
  (forall events,
      comparable_timestamps events = true ->
      exists sessions, pair_call_events events = Ok sessions)
  /\ (forall events,
         comparable_timestamps events = false ->
         pair_call_events events = Raise TypeError)
  /\ (forall et ts ctx,
         str_in et CALL_END_EVENTS = true ->
         pair_call_events [(et, ts, ctx)] = Ok [])
  /\ (forall et ts ctx,
         str_in et CALL_START_EVENTS = true ->
         pair_call_events [(et, ts, ctx)] = Ok []).
Proof.
  split; [intros events H; apply pair_call_events_returns; exact H |].
  split.
  - intros events H. destruct (pair_call_events events) as [r | e] eqn:E.
    + assert (Hc : comparable_timestamps events = true)
        by (apply pair_call_events_returns; exists r; exact E).
      rewrite Hc in H. discriminate H.
    + apply pair_call_events_Raise in E. subst e. reflexivity.
  - split; intros et ts ctx H; unfold pair_call_events; simpl.
    + rewrite H. destruct (str_in et CALL_START_EVENTS); reflexivity.
    + rewrite H. reflexivity.
Qed.

(** Events at pairwise different times have one ascending order. *)
Lemma ascending_unique (l : list call_event) :
  StronglySorted ev_before l ->
  forall r, Permutation r l -> ascending r -> r = l.
Proof.
  induction 1 as [| x l Hl IH Hx]; intros r Hp Hr.
  - apply Permutation_nil. apply Permutation_sym. exact Hp.
  - destruct r as [| y r'].
    + apply Permutation_nil in Hp. discriminate Hp.
    + inversion Hr as [| y' l' Hy Hr']; subst.
      assert (E : y = x).
      { assert (Hiny : In y (x :: l)).
        { eapply Permutation_in; [exact Hp | left; reflexivity]. }
        destruct Hiny as [E | Hiny]; [symmetry; exact E |].
        assert (Hinx : In x (y :: r')).
        { eapply Permutation_in;
            [apply Permutation_sym; exact Hp | left; reflexivity]. }
        destruct Hinx as [E | Hinx]; [exact E |].
        rewrite Forall_forall in Hx, Hy.
        specialize (Hx y Hiny). specialize (Hy x Hinx).
        unfold ev_before, ev_le in *. lia. }
      subst y. f_equal. apply IH; [| exact Hr'].
      eapply Permutation_cons_inv. exact Hp.
Qed.

Lemma end_not_start (et : string) :
  str_in et CALL_END_EVENTS = true -> str_in et CALL_START_EVENTS = false.
Proof.
  unfold str_in, CALL_END_EVENTS. simpl. rewrite orb_false_r.
  intros H. apply String.eqb_eq in H. subst et. reflexivity.
Qed.

(** C1.  Two nested calls, start at [t0], start at [t1], end at [t2], end
    at [t3] with [t0 < t1 < t2 < t3], in whatever order the four events
    are listed: the events are put in order of time and the result is the
    session from [t1] to [t2] followed by the session from [t0] to [t3],
    each with the context of its start event. *)
Theorem pair_call_events_lifo
    (s0 s1 e2 e3 : string) (t0 t1 t2 t3 : datetime) (ctxA c2 c3 : value)
    (events : list call_event) :
  str_in s0 CALL_START_EVENTS = true ->
  str_in s1 CALL_START_EVENTS = true ->
  str_in e2 CALL_END_EVENTS = true ->
  str_in e3 CALL_END_EVENTS = true ->
  dt_lt t0 t1 = Ok true ->
  dt_lt t1 t2 = Ok true ->
  dt_lt t2 t3 = Ok true ->
  Permutation events
    [(s0, t0, ctxA); (s1, t1, ctxA); (e2, t2, c2); (e3, t3, c3)] ->
  pair_call_events events =
    Ok [ {| start := t1; end_ := t2;
            server := py_or ctxA (VStr "Unknown/DM");
            duration_sec := total_seconds (instant t2 - instant t1) |};
         {| start := t0; end_ := t3;
            server := py_or ctxA (VStr "Unknown/DM");
            duration_sec := total_seconds (instant t3 - instant t0) |} ]
  /\ (truthy ctxA = true -> py_or ctxA (VStr "Unknown/DM") = ctxA).
Proof.
  intros Hs0 Hs1 He2 He3 H01 H12 H23 Hp.
  apply dt_lt_Ok in H01, H12, H23.
  destruct H01 as [K01 L01], H12 as [K12 L12], H23 as [K23 L23].
  symmetry in L01, L12, L23. apply Z.ltb_lt in L01, L12, L23.
  split; [| intros Ht; unfold py_or; rewrite Ht; reflexivity].
  set (canon := [(s0, t0, ctxA); (s1, t1, ctxA); (e2, t2, c2); (e3, t3, c3)])
    in *.
  assert (Hk : kind_is (aware t0) events).
  { eapply Permutation_Forall; [apply Permutation_sym; exact Hp |].
    unfold canon, kind_is. repeat constructor; unfold event_ts; simpl;
      congruence. }
  destruct (sorted_asc_total _ _ Hk) as [r Hr].
  destruct (sorted_asc_spec _ _ Hr) as [Hpr [Hasc _]].
  assert (E : r = canon).
  { apply ascending_unique.
    - unfold canon. repeat constructor; unfold ev_before, event_ts; simpl; lia.
    - apply perm_trans with events; [apply Permutation_sym; exact Hpr | exact Hp].
    - exact Hasc. }
  subst r. unfold pair_call_events. fold ev_lt. rewrite Hr. unfold canon.
  simpl. rewrite Hs0, Hs1, (end_not_start _ He2), He2,
    (end_not_start _ He3), He3.
  rewrite dt_sub_same by congruence. simpl.
  rewrite dt_sub_same by congruence. reflexivity.
Qed.

(* ================================================================== *)
(** ** The reading loop *)

Lemma counter_total_add1 (key : value) (c : Counter) :
  counter_total (counter_add1 key c) = counter_total c + 1.
Proof.
  induction c as [| [k n] rest IH]; simpl.
  - reflexivity.
  - destruct (key_eqb k key); simpl.
    + unfold counter_total. lia.
    + unfold counter_total in *. simpl. lia.
Qed.

(** A key that can be hashed is found under itself. *)
Lemma key_eqb_refl (key : value) :
  hashable key = true -> key_eqb key key = true.
Proof.
  destruct key as [| b | z | f | s | l | d]; simpl; try discriminate;
    intros _.
  - reflexivity.
  - apply eqb_reflx.
  - apply Z.eqb_refl.
  - destruct f as [s | s | | s m e]; try reflexivity.
    + destruct s; reflexivity.
    + unfold SFeqb, SFcompare.
      destruct s; rewrite Z.compare_refl, Pos.compare_cont_refl;
        reflexivity.
  - apply String.eqb_refl.
Qed.

Lemma counter_get_add1 (key : value) (c : Counter) :
  key_eqb key key = true ->
  counter_get key (counter_add1 key c) = counter_get key c + 1.
Proof.
  intros Hrefl. induction c as [| [k n] rest IH]; simpl.
  - rewrite Hrefl. reflexivity.
  - destruct (key_eqb k key) eqn:E; simpl; rewrite E; [reflexivity | exact IH].
Qed.

Section AnalyzerFacts.
Variable json_loads : string -> option value.
Variable fromisoformat : string -> option datetime.

Lemma analyze_line_skip (st : analysis) (line : string)
    (d : list (string * value)) :
  json_loads line = Some (VDict d) ->
  truthy (field d "event_type") = false ->
  analyze_line json_loads fromisoformat st line = Ok st.
Proof.
  intros Hd Hf. unfold analyze_line. rewrite Hd. simpl.
  fold (field d "event_type"). rewrite Hf. reflexivity.
Qed.

Lemma analyze_line_counts (st st' : analysis) (line : string) :
  analyze_line json_loads fromisoformat st line = Ok st' ->
  counter_total (event_counts st') =
    counter_total (event_counts st)
    + (if counted_line json_loads line then 1 else 0).
Proof.
  unfold analyze_line, counted_line.
  destruct (json_loads line) as [record |];
    [| intros H; inversion H; subst; lia].
  destruct record; simpl; try discriminate.
  fold (field d "event_type").
  destruct (truthy (field d "event_type")) eqn:Et; simpl;
    [| intros H; inversion H; subst; lia].
  unfold counter_incr.
  destruct (hashable (field d "event_type")); simpl; [| discriminate].
  pose proof (counter_total_add1 (field d "event_type") (event_counts st))
    as Hadd.
  fold (field d "timestamp").
  destruct (truthy (field d "timestamp")); simpl;
    [| intros H; inversion H; subst; simpl; exact Hadd].
  destruct (normalize_timestamp (field d "timestamp")); simpl;
    [| discriminate].
  destruct (fromisoformat a); [| discriminate].
  destruct (field d "event_type");
    repeat match goal with
           | |- context [if ?c then _ else _] => destruct c
           end;
    intros H; inversion H; subst; simpl; exact Hadd.
Qed.

Lemma analyze_lines_counts (lines : list string) :
  forall st st',
    analyze_lines json_loads fromisoformat st lines = Ok st' ->
    counter_total (event_counts st') =
      counter_total (event_counts st)
      + count_lines (counted_line json_loads) lines.
Proof.
  unfold count_lines.
  induction lines as [| line rest IH]; intros st st' H; simpl in H.
  - inversion H; subst. simpl. lia.
  - inv_bind H as st1 H1. apply analyze_line_counts in H1.
    apply IH in H. cbn [filter].
    destruct (counted_line json_loads line); cbn [List.length];
      rewrite ?Nat2Z.inj_succ; lia.
Qed.

Lemma analyze_lines_app (pre post : list string) (st : analysis) :
  analyze_lines json_loads fromisoformat st (pre ++ post) =
    (st' <- analyze_lines json_loads fromisoformat st pre ;;
     analyze_lines json_loads fromisoformat st' post).
Proof.
  revert st. induction pre as [| line pre IH]; intros st; simpl.
  - reflexivity.
  - destruct (analyze_line json_loads fromisoformat st line) as [st1 | e];
      simpl; [apply IH | reflexivity].
Qed.

(** C3, as the code has it.  When [analyze_file] returns, the counts in
    [event_counts] add up to the number of lines that decode to an
    object with a truthy [event_type]. *)
Theorem analyze_file_counts_total (lines : list string) (r : analysis) :
  analyze_file json_loads fromisoformat lines = Ok r ->
  counter_total (event_counts r)
  = count_lines (counted_line json_loads) lines.
Proof.
  unfold analyze_file. intros H. inv_bind H as st Hst.
  inv_bind H as msgs Hmsgs. inversion H; subst. simpl.
  apply analyze_lines_counts in Hst. simpl in Hst. lia.
Qed.

(** C4, as the code has it.  A line that decodes to a record with a
    truthy, hashable event type (every non-empty string is one) and no
    [timestamp] key raises the count of that event type by one and adds
    nothing to [call_events] or [messages]. *)
Theorem analyze_line_missing_timestamp
    (st : analysis) (line : string) (d : list (string * value))
    (et : value) :
  json_loads line = Some (VDict d) ->
  dict_get d "event_type" = Some et ->
  truthy et = true ->
  hashable et = true ->
  dict_get d "timestamp" = None ->
  exists st',
    analyze_line json_loads fromisoformat st line = Ok st'
    /\ event_counts st' = counter_add1 et (event_counts st)
    /\ counter_get et (event_counts st')
       = counter_get et (event_counts st) + 1
    /\ call_events st' = call_events st
    /\ messages st' = messages st.
Proof.
  intros Hd Het Ht Hh Hts. unfold analyze_line. rewrite Hd. simpl.
  rewrite Het, Ht. simpl. unfold counter_incr. rewrite Hh. simpl.
  rewrite Hts. simpl. eexists. split; [reflexivity |]. simpl.
  repeat split. apply counter_get_add1. apply key_eqb_refl. exact Hh.
Qed.

(** C5.  A line that decodes to a record with a valid event type and a
    non-empty timestamp string that [fromisoformat] rejects makes the
    loop, and with it [analyze_file], raise [ValueError], wherever the
    line stands after lines that were read without error. *)
Theorem analyze_file_bad_timestamp_raises
    (pre post : list string) (st : analysis) (line : string)
    (d : list (string * value)) (et : value) (ts : string) :
  analyze_lines json_loads fromisoformat empty_analysis pre = Ok st ->
  json_loads line = Some (VDict d) ->
  dict_get d "event_type" = Some et ->
  truthy et = true ->
  hashable et = true ->
  dict_get d "timestamp" = Some (VStr ts) ->
  ts <> EmptyString ->
  fromisoformat (replace "Z"%char "+00:00" (strip dquote ts)) = None ->
  analyze_line json_loads fromisoformat st line = Raise ValueError
  /\ analyze_file json_loads fromisoformat (pre ++ line :: post)
     = Raise ValueError.
Proof.
  intros Hpre Hd Het Ht Hh Hts Hne Hiso.
  assert (Hline : analyze_line json_loads fromisoformat st line
                  = Raise ValueError).
  { unfold analyze_line. rewrite Hd. simpl.
    rewrite Het, Ht. simpl. unfold counter_incr. rewrite Hh. simpl.
    rewrite Hts. simpl.
    destruct ts as [| a ts']; [contradiction Hne; reflexivity |].
    simpl. rewrite Hiso. reflexivity. }
  split; [exact Hline |].
  unfold analyze_file. rewrite analyze_lines_app, Hpre. simpl.
  rewrite Hline. reflexivity.
Qed.

(** C10.  A line that decodes to an object whose [event_type] is present
    but falsy is skipped like one without [event_type]: the accumulators
    are left as they were, and the run gives what it gives without the
    line. *)
Theorem analyze_line_falsy_event_type
    (st : analysis) (line : string) (d : list (string * value))
    (et : value) :
  json_loads line = Some (VDict d) ->
  dict_get d "event_type" = Some et ->
  truthy et = false ->
  analyze_line json_loads fromisoformat st line = Ok st
  /\ (forall line' d',
         json_loads line' = Some (VDict d') ->
         dict_get d' "event_type" = None ->
         analyze_line json_loads fromisoformat st line'
         = analyze_line json_loads fromisoformat st line)
  /\ (forall pre post,
         analyze_file json_loads fromisoformat (pre ++ line :: post)
         = analyze_file json_loads fromisoformat (pre ++ post)).
Proof.
  intros Hd Het Hf.
  assert (Hskip : forall st0,
             analyze_line json_loads fromisoformat st0 line = Ok st0).
  { intros st0. apply analyze_line_skip with (d := d); [exact Hd |].
    unfold field. rewrite Het. exact Hf. }
  split; [apply Hskip |]. split.
  - intros line' d' Hd' Hnone. rewrite Hskip.
    apply analyze_line_skip with (d := d'); [exact Hd' |].
    unfold field. rewrite Hnone. reflexivity.
  - intros pre post. unfold analyze_file.
    rewrite !analyze_lines_app. simpl.
    destruct (analyze_lines json_loads fromisoformat empty_analysis pre)
      as [st1 | e]; simpl; [| reflexivity].
    rewrite Hskip. reflexivity.
Qed.

End AnalyzerFacts.

(* ================================================================== *)
(** ** Export and ranking *)



(** With counts a:5, b:5, c:3 and a inserted before b, wherever c was
    inserted, the two most common entries are a then b, and the full
    ranking is a, b, c. *)
Lemma most_common_tie_stable (c : Counter) :
  Permutation c [entry_a; entry_b; entry_c] ->
  (exists l1 l2 l3, c = l1 ++ entry_a :: l2 ++ entry_b :: l3) ->
  most_common 2 c = Ok [entry_a; entry_b]
  /\ most_common_all c = Ok [entry_a; entry_b; entry_c].
Proof.
  intros Hp (l1 & l2 & l3 & ->).
  pose proof (Permutation_length Hp) as Hlen.
  pose proof (Permutation_in entry_c (Permutation_sym Hp)) as Hin.
  specialize (Hin (or_intror (or_intror (or_introl eq_refl)))).
  rewrite length_app in Hlen. simpl in Hlen. rewrite length_app in Hlen.
  simpl in Hlen.
  destruct l1 as [| x1 [| ? ?]]; destruct l2 as [| x2 [| ? ?]];
    destruct l3 as [| x3 [| ? ?]]; simpl in Hlen; try lia; simpl in Hin;
    repeat (destruct Hin as [Hin | Hin]; try discriminate Hin);
    try contradiction; subst; split; reflexivity.
Qed.

(* ================================================================== *)
(** * The script on the sample data *)

Example sample_analysis :
  analyze_file PyLib.json_loads PyLib.fromisoformat sample_lines =
    Ok {| event_counts :=
            [ (VStr "join_call", 1); (VStr "send_message", 1);
              (VStr "voice_disconnect", 1); (VStr "app_opened", 1) ];
          call_events :=
            [ ("join_call", utc_time 12 0 0 0, VStr "42");
              ("voice_disconnect", utc_time 12 30 0 500000, VNone) ];
          messages :=
            [ {| timestamp := utc_time 12 10 0 250000;
                 channel := VStr "7";
                 length_ := VInt 12;
                 word_count := VInt 3 |} ] |}.
Proof. vm_compute. reflexivity. Qed.

Example sample_sessions :
  pair_call_events
    [ ("join_call", utc_time 12 0 0 0, VStr "42");
      ("voice_disconnect", utc_time 12 30 0 500000, VNone) ] =
    Ok [ {| start := utc_time 12 0 0 0;
            end_ := utc_time 12 30 0 500000;
            server := VStr "42";
            duration_sec := 1800500000 # 1000000 |} ].
Proof. vm_compute. reflexivity. Qed.

Example sample_export :
  export_call_sessions PyLib.isoformat
    [ {| start := utc_time 12 0 0 0;
         end_ := utc_time 12 30 0 500000;
         server := VStr "42";
         duration_sec := 1800500000 # 1000000 |} ] =
    ( [ {| Server_Channel := VStr "42";
           Start := "2021-03-04T12:00:00+00:00";
           End_ := "2021-03-04T12:30:00.500000+00:00";
           Duration_Readble := "0h 30m 0s";
           Duration_Sec := 1800 |} ],
      [ {| j_server := VStr "42";
           j_start := "2021-03-04T12:00:00+00:00";
           j_end := "2021-03-04T12:30:00.500000+00:00";
           j_duration_readable := "0h 30m 0s";
           j_duration_sec := 1800500000 # 1000000 |} ] ).
Proof. vm_compute. reflexivity. Qed.

Example sample_normalize_timestamp :
  normalize_timestamp (VStr (dq "'2021-03-04T12:10:00.250Z'"))
  = Ok "2021-03-04T12:10:00.250+00:00".
Proof. reflexivity. Qed.

(** ** Instances of the theorems *)

Lemma pair_call_events_lifo_witness :
  pair_call_events nested_calls =
    Ok [ {| start := t1; end_ := t2; server := VStr "guild-1";
            duration_sec := 1500000000 # 1000000 |};
         {| start := t0; end_ := t3; server := VStr "guild-1";
            duration_sec := 3600000000 # 1000000 |} ].
Proof.
  exact (proj1 (pair_call_events_lifo
                  "join_call" "voice_connection_success"
                  "voice_disconnect" "voice_disconnect"
                  t0 t1 t2 t3 (VStr "guild-1") (VStr "guild-1") VNone
                  nested_calls
                  eq_refl eq_refl eq_refl eq_refl eq_refl eq_refl eq_refl
                  (Permutation_refl nested_calls))).
Defined.

Lemma pair_call_events_start_le_end_witness :
  pair_call_events instant_call = Ok [instant_session]
  /\ dt_le (start instant_session) (end_ instant_session) = Ok true
  /\ (0 <= duration_sec instant_session)%Q
  /\ (duration_sec instant_session == 0)%Q
  /\ format_duration (duration_sec instant_session) = "0h 0m 0s".
Proof.
  assert (Hrun : pair_call_events instant_call = Ok [instant_session])
    by reflexivity.
  pose proof (pair_call_events_start_le_end _ _ Hrun) as H.
  apply Forall_inv in H. destruct H as [Hle [Hpos Hzero]].
  destruct (Hzero eq_refl) as [Hz Hf].
  repeat split; assumption.
Defined.

Lemma pair_call_events_server_falsy_context_witness :
  pair_call_events instant_call = Ok [instant_session]
  /\ exists et ctx,
       In (et, start instant_session, ctx) instant_call
       /\ str_in et CALL_START_EVENTS = true
       /\ server instant_session = py_or ctx (VStr "Unknown/DM")
       /\ (ctx = VNone \/ ctx = VStr EmptyString \/ truthy ctx = false ->
           server instant_session = VStr "Unknown/DM").
Proof.
  assert (Hrun : pair_call_events instant_call = Ok [instant_session])
    by reflexivity.
  split; [exact Hrun |].
  exact (Forall_inv (pair_call_events_server_falsy_context _ _ Hrun)).
Defined.

Lemma pair_call_events_drops_unmatched_witness :
  pair_call_events [("voice_disconnect", t0, VNone)] = Ok []
  /\ pair_call_events [("join_call", t0, VNone)] = Ok []
  /\ (exists sessions, pair_call_events nested_calls = Ok sessions)
  /\ pair_call_events mixed_calls = Raise TypeError.
Proof.
  destruct pair_call_events_drops_unmatched
    as [Hret [Hraise [Hend Hstart]]].
  split; [apply Hend; reflexivity |].
  split; [apply Hstart; reflexivity |].
  split; [apply Hret; reflexivity | apply Hraise; reflexivity].
Defined.

Lemma analyze_file_counts_total_witness :
  exists r,
    analyze_file PyLib.json_loads PyLib.fromisoformat sample_lines = Ok r
    /\ counter_total (event_counts r)
       = count_lines (counted_line PyLib.json_loads) sample_lines
    /\ count_lines (counted_line PyLib.json_loads) sample_lines = 4.
Proof.
  eexists. split; [exact sample_analysis |].
  split; [| reflexivity].
  exact (analyze_file_counts_total _ _ _ _ sample_analysis).
Defined.

Lemma analyze_line_missing_timestamp_witness :
  exists st',
    analyze_line PyLib.json_loads PyLib.fromisoformat
      empty_analysis line_no_timestamp = Ok st'
    /\ event_counts st' = [(VStr "app_opened", 1)]
    /\ counter_get (VStr "app_opened") (event_counts st') = 0 + 1
    /\ call_events st' = []
    /\ messages st' = [].
Proof.
  exact (analyze_line_missing_timestamp
           PyLib.json_loads PyLib.fromisoformat empty_analysis
           line_no_timestamp [("event_type", VStr "app_opened")]
           (VStr "app_opened") eq_refl eq_refl eq_refl eq_refl eq_refl).
Defined.

Lemma analyze_file_bad_timestamp_raises_witness :
  PyLib.json_loads line_bad_timestamp
    = Some (VDict [ ("event_type", VStr "join_call");
                    ("timestamp", VStr "yesterday") ])
  /\ PyLib.fromisoformat "yesterday" = None
  /\ analyze_file PyLib.json_loads PyLib.fromisoformat
       [line_join; line_bad_timestamp; line_disconnect]
     = Raise ValueError.
Proof.
  split; [reflexivity |]. split; [reflexivity |].
  refine (proj2 (analyze_file_bad_timestamp_raises
                   PyLib.json_loads PyLib.fromisoformat
                   [line_join] [line_disconnect] _ line_bad_timestamp
                   [ ("event_type", VStr "join_call");
                     ("timestamp", VStr "yesterday") ]
                   (VStr "join_call") "yesterday"
                   eq_refl eq_refl eq_refl eq_refl eq_refl eq_refl _ eq_refl)).
  discriminate.
Defined.

Lemma analyze_line_falsy_event_type_witness :
  analyze_line PyLib.json_loads PyLib.fromisoformat
    empty_analysis line_empty_type_dated = Ok empty_analysis
  /\ analyze_file PyLib.json_loads PyLib.fromisoformat
       [line_join; line_empty_type_dated; line_disconnect]
     = analyze_file PyLib.json_loads PyLib.fromisoformat
         [line_join; line_disconnect].
Proof.
  destruct (analyze_line_falsy_event_type
              PyLib.json_loads PyLib.fromisoformat empty_analysis
              line_empty_type_dated
              [ ("event_type", VStr EmptyString);
                ("timestamp", VStr "2021-03-04T12:00:00+00:00") ]
              (VStr EmptyString) eq_refl eq_refl eq_refl)
    as [Hline [_ Hfile]].
  split; [exact Hline |].
  exact (Hfile [line_join] [line_disconnect]).
Defined.



(** ** Inputs on which the documented behaviour fails *)


(** C3.  A line whose [event_type] is the empty string decodes to an
    object that carries an [event_type] field, and is not counted. *)
Lemma analyze_file_counts_counterexample :
  exists r,
    analyze_file PyLib.json_loads PyLib.fromisoformat [line_empty_type]
      = Ok r
    /\ counter_total (event_counts r) = 0
    /\ count_lines (bears_event_type PyLib.json_loads) [line_empty_type] = 1.
Proof.
  eexists. split; [vm_compute; reflexivity |]. split; reflexivity.
Qed.

(** C7.  A start without time zone followed by an end in UTC, as
    [analyze_file] collects them from two lines: [pair_call_events] raises
    [TypeError]. *)
Lemma pair_call_events_mixed_counterexample :
  (exists r,
      analyze_file PyLib.json_loads PyLib.fromisoformat
        [line_join_naive; line_disconnect_utc] = Ok r
      /\ call_events r = mixed_calls)
  /\ pair_call_events mixed_calls = Raise TypeError.
Proof.
  split; [| reflexivity].
  eexists. split; [vm_compute; reflexivity | reflexivity].
Qed.

(** C4.  A record whose [event_type] is the empty string and that has no
    [timestamp]: the line is skipped, no count is raised. *)
Lemma analyze_line_missing_timestamp_counterexample :
  PyLib.json_loads line_empty_type
    = Some (VDict [("event_type", VStr EmptyString)])
  /\ dict_get [("event_type", VStr EmptyString)] "timestamp" = None
  /\ analyze_line PyLib.json_loads PyLib.fromisoformat
       empty_analysis line_empty_type = Ok empty_analysis
  /\ (forall st,
         analyze_line PyLib.json_loads PyLib.fromisoformat st line_empty_type
         = Ok st
         /\ ~ (exists st',
                 analyze_line PyLib.json_loads PyLib.fromisoformat
                   st line_empty_type = Ok st'
                 /\ counter_get (VStr EmptyString) (event_counts st')
                    = counter_get (VStr EmptyString) (event_counts st) + 1)).
Proof.
  split; [reflexivity |]. split; [reflexivity |]. split; [reflexivity |].
  intros st.
  assert (H : analyze_line PyLib.json_loads PyLib.fromisoformat
                st line_empty_type = Ok st) by reflexivity.
  split; [exact H |]. intros [st' [H' Hc]].
  rewrite H in H'. inversion H'; subst st'. lia.
Qed.

(* ================================================================== *)
(** * Further properties of the script *)

(** ** [format_duration] *)

Lemma py_int_nonneg (q : Q) : (0 <= q)%Q -> 0 <= py_int q.
Proof.
  intros H. unfold py_int. unfold Qle in H. simpl in H.
  apply Z.quot_pos; lia.
Qed.

(** X1.  [format_duration] prints hours, minutes and seconds that add up
    to the whole seconds of its argument, with minutes and seconds
    always in 0..59; for a non-negative duration the hours are not
    negative either. *)
Theorem format_duration_parts (seconds : Q) :
  exists h m s,
    format_duration seconds
    = (str_of_Z h ++ "h " ++ str_of_Z m ++ "m " ++ str_of_Z s ++ "s")%string
    /\ 0 <= m < 60 /\ 0 <= s < 60
    /\ h * 3600 + m * 60 + s = py_int seconds
    /\ ((0 <= seconds)%Q -> 0 <= h).
Proof.
  set (sec := py_int seconds).
  exists (sec / 3600), ((sec mod 3600) / 60), ((sec mod 3600) mod 60).
  pose proof (Z.mod_pos_bound sec 3600 ltac:(lia)) as Hrem.
  pose proof (Z.mod_pos_bound (sec mod 3600) 60 ltac:(lia)) as Hs.
  pose proof (Z.div_mod sec 3600 ltac:(lia)) as Hh.
  pose proof (Z.div_mod (sec mod 3600) 60 ltac:(lia)) as Hm.
  split; [reflexivity |].
  split; [split; [apply Z.div_pos; lia
                 | apply Z.div_lt_upper_bound; lia] |].
  split; [exact Hs |].
  split; [lia |].
  intros Hq. apply Z.div_pos; [| lia].
  apply py_int_nonneg. exact Hq.
Qed.

(** ** The timestamp handed to [fromisoformat] *)

Lemma lstrip_first (c : ascii) (s : string) :
  first_char (lstrip c s) <> Some c.
Proof.
  induction s as [| a s IH]; simpl; [discriminate |].
  destruct (Ascii.eqb a c) eqn:E; [exact IH |].
  simpl. intros H. inversion H; subst. rewrite Ascii.eqb_refl in E.
  discriminate E.
Qed.

Lemma rstrip_first (c : ascii) (s : string) :
  first_char s <> Some c -> first_char (rstrip c s) <> Some c.
Proof.
  destruct s as [| a s]; simpl; intros H; [discriminate |].
  destruct (rstrip c s); [destruct (Ascii.eqb a c); [discriminate |] |];
    exact H.
Qed.

Lemma rstrip_last (c : ascii) (s : string) :
  last_char (rstrip c s) <> Some c.
Proof.
  induction s as [| a s IH]; simpl; [discriminate |].
  destruct (rstrip c s) as [| b r] eqn:E.
  - destruct (Ascii.eqb a c) eqn:Ea; [discriminate |].
    simpl. intros H. inversion H; subst. rewrite Ascii.eqb_refl in Ea.
    discriminate Ea.
  - exact IH.
Qed.

Lemma contains_char_app (c : ascii) (s t : string) :
  contains_char c (s ++ t)
  = (contains_char c s || contains_char c t)%bool.
Proof.
  induction s as [| a s IH]; simpl; [reflexivity |].
  rewrite IH. apply orb_assoc.
Qed.

Lemma replace_contains (c : ascii) (by_ s : string) :
  contains_char c by_ = false -> contains_char c (replace c by_ s) = false.
Proof.
  intros Hby. induction s as [| a s IH]; simpl; [reflexivity |].
  destruct (Ascii.eqb a c) eqn:E.
  - rewrite contains_char_app, Hby, IH. reflexivity.
  - simpl. rewrite E, IH. reflexivity.
Qed.

Lemma last_char_some (a : ascii) (s : string) :
  exists b, last_char (String a s) = Some b.
Proof.
  revert a. induction s as [| c s IH]; intros a.
  - exists a. reflexivity.
  - destruct (IH c) as [b Hb]. exists b. exact Hb.
Qed.

Lemma last_char_cons (a : ascii) (s : string) :
  last_char (String a s)
  = match last_char s with Some b => Some b | None => Some a end.
Proof.
  destruct s as [| b s]; [reflexivity |].
  destruct (last_char_some b s) as [x Hx]. rewrite Hx.
  change (last_char (String a (String b s))) with (last_char (String b s)).
  exact Hx.
Qed.

Lemma last_char_app (s t : string) :
  last_char (s ++ t)
  = match last_char t with Some b => Some b | None => last_char s end.
Proof.
  induction s as [| a s IH].
  - simpl. destruct (last_char t); reflexivity.
  - change (String a s ++ t)%string with (String a (s ++ t)%string).
    rewrite !last_char_cons, IH. destruct (last_char t); reflexivity.
Qed.

Lemma replace_Z_first (s : string) :
  first_char s <> Some dquote ->
  first_char (replace "Z"%char "+00:00" s) <> Some dquote.
Proof.
  destruct s as [| a s]; simpl; intros H; [discriminate |].
  destruct (Ascii.eqb a "Z"%char); simpl; [discriminate | exact H].
Qed.

Lemma replace_Z_last_char (s : string) :
  last_char (replace "Z"%char "+00:00" s)
  = match last_char s with
    | Some c => if Ascii.eqb c "Z"%char then Some "0"%char else Some c
    | None => None
    end.
Proof.
  induction s as [| a s IH]; [reflexivity |].
  cbn [replace]. rewrite (last_char_cons a s).
  destruct (Ascii.eqb a "Z"%char) eqn:E.
  - rewrite last_char_app, IH.
    destruct (last_char s) as [c |]; [destruct (Ascii.eqb c "Z"%char) |];
      try reflexivity.
    rewrite E. reflexivity.
  - rewrite last_char_cons, IH.
    destruct (last_char s) as [c |]; [destruct (Ascii.eqb c "Z"%char) |];
      try reflexivity.
    rewrite E. reflexivity.
Qed.

Lemma replace_Z_last (s : string) :
  last_char s <> Some dquote ->
  last_char (replace "Z"%char "+00:00" s) <> Some dquote.
Proof.
  intros H. rewrite replace_Z_last_char.
  destruct (last_char s) as [c |]; [| discriminate].
  destruct (Ascii.eqb c "Z"%char); [discriminate | exact H].
Qed.

(** X2.  Whatever string the record carries as timestamp, the text handed
    to [fromisoformat] has no letter Z in it and no double quote at
    either end; a timestamp that is not a string raises
    [AttributeError]. *)
Theorem normalize_timestamp_shape (ts : value) :
  (forall s, ts = VStr s ->
     exists iso,
       normalize_timestamp ts = Ok iso
       /\ contains_char "Z"%char iso = false
       /\ first_char iso <> Some dquote
       /\ last_char iso <> Some dquote)
  /\ ((forall s, ts <> VStr s) ->
      normalize_timestamp ts = Raise AttributeError).
Proof.
  split.
  - intros s ->. eexists. split; [reflexivity |].
    split; [apply replace_contains; reflexivity |].
    split.
    + apply replace_Z_first. unfold strip. apply rstrip_first.
      apply lstrip_first.
    + apply replace_Z_last. unfold strip. apply rstrip_last.
  - intros H. destruct ts; try reflexivity. contradiction (H s eq_refl).
Qed.

(* ================================================================== *)
(** ** More on [pair_call_events] *)

Lemma count_events_perm (p : call_event -> bool) (l r : list call_event) :
  Permutation l r -> count_events p l = count_events p r.
Proof.
  unfold count_events. induction 1 as [| x l r Hp IH | x y l | l m r H1 IH1 H2 IH2];
    simpl.
  - reflexivity.
  - destruct (p x); simpl; rewrite IH; reflexivity.
  - destruct (p x), (p y); reflexivity.
  - rewrite IH1. exact IH2.
Qed.

Lemma pair_loop_length :
  forall events stack sessions res,
    pair_loop events stack sessions = Ok res ->
    (List.length res
     <= List.length sessions + count_events is_end events)%nat
    /\ (List.length res
        <= List.length sessions + List.length stack
           + count_events is_start events)%nat.
Proof.
  unfold count_events.
  induction events as [| [[et ts] ctx] rest IH]; intros stack sessions res H.
  - simpl in H. inversion H; subst. simpl. lia.
  - simpl in H. cbn [filter]. unfold is_start at 1, is_end at 1.
    unfold event_type_of. cbn [fst].
    destruct (str_in et CALL_START_EVENTS) eqn:Es.
    + apply IH in H. simpl in H.
      destruct (str_in et CALL_END_EVENTS); cbn [List.length]; lia.
    + destruct (str_in et CALL_END_EVENTS) eqn:Ee.
      * destruct stack as [| [start_ts start_ctx] stack'].
        -- apply IH in H. cbn [List.length] in *. lia.
        -- inv_bind H as td Htd. apply IH in H.
           rewrite length_app in H. cbn [List.length] in *. lia.
      * apply IH in H. lia.
Qed.

(** X3.  [pair_call_events] emits at most as many sessions as there are
    start events and at most as many as there are end events: without a
    start, or without an end, there is no session. *)
Theorem pair_call_events_count
    (events : list call_event) (sessions : list session) :
  pair_call_events events = Ok sessions ->
  (List.length sessions <= count_events is_start events)%nat
  /\ (List.length sessions <= count_events is_end events)%nat.
Proof.
  unfold pair_call_events. intros H. inv_bind H as sorted_ev Hsort.
  destruct (sorted_asc_spec events sorted_ev Hsort) as [Hp _].
  apply pair_loop_length in H. simpl in H.
  rewrite !(count_events_perm _ _ _ Hp). lia.
Qed.

(** Timestamps of both kinds make [pair_call_events] raise. *)
Lemma pair_call_events_not_comparable (events : list call_event) :
  comparable_timestamps events = false ->
  pair_call_events events = Raise TypeError.
Proof.
  intros H. destruct (pair_call_events events) as [r | e] eqn:E.
  - assert (Hc : comparable_timestamps events = true)
      by (apply pair_call_events_returns; exists r; exact E).
    rewrite Hc in H. discriminate H.
  - apply pair_call_events_Raise in E. subst e. reflexivity.
Qed.

Lemma comparable_perm (l r : list call_event) :
  Permutation l r -> comparable_timestamps l = comparable_timestamps r.
Proof.
  intros Hp.
  destruct (comparable_timestamps l) eqn:El;
    destruct (comparable_timestamps r) eqn:Er; try reflexivity.
  - apply comparable_kind in El. destruct El as [b Hb].
    assert (Hr : comparable_timestamps r = true).
    { apply comparable_kind. exists b.
      eapply Permutation_Forall; [exact Hp | exact Hb]. }
    rewrite Hr in Er. discriminate Er.
  - apply comparable_kind in Er. destruct Er as [b Hb].
    assert (Hl : comparable_timestamps l = true).
    { apply comparable_kind. exists b.
      eapply Permutation_Forall; [apply Permutation_sym; exact Hp | exact Hb]. }
    rewrite Hl in El. discriminate El.
Qed.

Lemma ascending_strict (r : list call_event) :
  ascending r -> NoDup (instants r) -> StronglySorted ev_before r.
Proof.
  induction 1 as [| x l Hx Hl IH]; intros Hnd; [constructor |].
  unfold instants in Hnd. simpl in Hnd. inversion Hnd as [| i is_ Hni Hnd']; subst.
  constructor; [apply IH; exact Hnd' |].
  rewrite Forall_forall in *. intros y Hy.
  specialize (Hx y Hy). unfold ev_before, ev_le in *.
  assert (instant (event_ts x) <> instant (event_ts y)).
  { intros E. apply Hni. rewrite E.
    apply (in_map (fun e => instant (event_ts e))). exact Hy. }
  lia.
Qed.

(** X4.  When no two events share a timestamp, the result of
    [pair_call_events] does not depend on the order in which the events
    are listed. *)
Theorem pair_call_events_order_independent (l l' : list call_event) :
  Permutation l l' ->
  NoDup (instants l) ->
  pair_call_events l' = pair_call_events l.
Proof.
  intros Hp Hnd. destruct (comparable_timestamps l) eqn:Ec.
  - pose proof Ec as Ec'. rewrite (comparable_perm _ _ Hp) in Ec'.
    apply comparable_kind in Ec, Ec'.
    destruct Ec as [b Hb], Ec' as [b' Hb'].
    destruct (sorted_asc_total b l Hb) as [r Hr].
    destruct (sorted_asc_total b' l' Hb') as [r' Hr'].
    destruct (sorted_asc_spec _ _ Hr) as [Hpr [Hasc _]].
    destruct (sorted_asc_spec _ _ Hr') as [Hpr' [Hasc' _]].
    assert (E : r' = r).
    { apply ascending_unique; [| | exact Hasc'].
      - apply ascending_strict; [exact Hasc |].
        eapply Permutation_NoDup; [| exact Hnd].
        unfold instants. apply Permutation_map. exact Hpr.
      - apply perm_trans with l'; [apply Permutation_sym; exact Hpr' |].
        apply perm_trans with l; [apply Permutation_sym; exact Hp | exact Hpr]. }
    unfold pair_call_events. fold ev_lt. rewrite Hr, Hr', E. reflexivity.
  - rewrite (pair_call_events_not_comparable l Ec).
    apply pair_call_events_not_comparable.
    rewrite <- (comparable_perm _ _ Hp). exact Ec.
Qed.

(** Mapping a function over a computation's result. *)
Lemma insert_asc_map (f : call_event -> call_event) :
  (forall e, event_ts (f e) = event_ts e) ->
  forall x l,
    insert_asc ev_lt (f x) (map f l)
    = (r <- insert_asc ev_lt x l ;; Ok (map f r)).
Proof.
  intros Hf x l. induction l as [| y l IH]; simpl; [reflexivity |].
  unfold ev_lt at 1 3. rewrite !Hf.
  destruct (dt_lt (event_ts y) (event_ts x)) as [b | e]; simpl;
    [| reflexivity].
  destruct b; [| reflexivity].
  rewrite IH. destruct (insert_asc ev_lt x l); reflexivity.
Qed.

Lemma sorted_asc_map (f : call_event -> call_event) :
  (forall e, event_ts (f e) = event_ts e) ->
  forall l,
    sorted_asc ev_lt (map f l) = (r <- sorted_asc ev_lt l ;; Ok (map f r)).
Proof.
  intros Hf l. induction l as [| x l IH]; simpl; [reflexivity |].
  rewrite IH. destruct (sorted_asc ev_lt l) as [s | e]; simpl;
    [| reflexivity].
  apply insert_asc_map. exact Hf.
Qed.

Lemma recontext_ts (g : call_event -> value) (e : call_event) :
  event_ts (recontext g e) = event_ts e.
Proof.
  unfold recontext. destruct (is_start e); reflexivity.
Qed.

Lemma pair_loop_recontext (g : call_event -> value) :
  forall events stack sessions,
    pair_loop (map (recontext g) events) stack sessions
    = pair_loop events stack sessions.
Proof.
  induction events as [| [[et ts] ctx] rest IH]; intros stack sessions;
    [reflexivity |].
  cbn [map]. unfold recontext at 1, is_start, event_type_of, event_ts.
  cbn [fst snd].
  destruct (str_in et CALL_START_EVENTS) eqn:Es; simpl; rewrite Es.
  - apply IH.
  - destruct (str_in et CALL_END_EVENTS).
    + destruct stack as [| [start_ts start_ctx] stack']; [apply IH |].
      destruct (dt_sub ts start_ts); simpl; [apply IH | reflexivity].
    + apply IH.
Qed.

(** X5.  The context of an event that is not a start event is never
    used: whatever it is replaced by, [pair_call_events] gives the same
    result.  An end event closes the latest open call whatever server
    either belongs to. *)
Theorem pair_call_events_ignores_end_context
    (g : call_event -> value) (events : list call_event) :
  pair_call_events (map (recontext g) events) = pair_call_events events.
Proof.
  unfold pair_call_events. fold ev_lt.
  rewrite (sorted_asc_map _ (recontext_ts g)).
  destruct (sorted_asc ev_lt events) as [r | e]; simpl; [| reflexivity].
  apply pair_loop_recontext.
Qed.

Lemma sorted_asc_ascending (b : bool) (l : list call_event) :
  ascending l -> kind_is b l -> sorted_asc ev_lt l = Ok l.
Proof.
  induction 1 as [| x l Hx Hl IH]; intros Hk; [reflexivity |].
  apply Forall_cons_iff in Hk. destruct Hk as [Hkx Hkl].
  simpl. rewrite (IH Hkl). simpl.
  destruct l as [| y l']; [reflexivity |].
  simpl. unfold ev_lt at 1.
  apply Forall_cons_iff in Hkl. destruct Hkl as [Hky _].
  rewrite dt_lt_same by congruence. simpl.
  apply Forall_cons_iff in Hx. destruct Hx as [Hxy _].
  unfold ev_le in Hxy. apply Z.ltb_ge in Hxy. rewrite Hxy. reflexivity.
Qed.

Lemma pair_loop_starts (starts rest : list call_event) :
  Forall (fun e => is_start e = true) starts ->
  forall stack sessions,
    pair_loop (starts ++ rest) stack sessions
    = pair_loop rest (map stack_entry (rev starts) ++ stack) sessions.
Proof.
  induction 1 as [| [[et ts] ctx] starts Hs Hrest IH]; intros stack sessions;
    [reflexivity |].
  unfold is_start, event_type_of in Hs. cbn [fst] in Hs.
  cbn [app pair_loop]. rewrite Hs, IH. cbn [rev].
  rewrite map_app, <- app_assoc. reflexivity.
Qed.

Lemma pair_loop_ends (b : bool) (ends : list call_event) :
  Forall (fun e => is_end e = true) ends ->
  kind_is b ends ->
  forall open_ sessions,
    kind_is b open_ ->
    pair_loop ends (map stack_entry open_) sessions
    = Ok (sessions
          ++ map (fun p => close_session (fst p) (snd p))
               (combine open_ ends)).
Proof.
  induction 1 as [| [[et ts] ctx] ends He Hrest IH]; intros Hk open_ sessions Ho.
  - simpl. destruct open_; simpl; rewrite app_nil_r; reflexivity.
  - apply Forall_cons_iff in Hk. destruct Hk as [Hkx Hkl].
    unfold is_end, event_type_of in He. cbn [fst] in He.
    cbn [pair_loop]. rewrite (end_not_start _ He), He.
    destruct open_ as [| st open_'].
    + exact (IH Hkl [] sessions (Forall_nil _)).
    + apply Forall_cons_iff in Ho. destruct Ho as [Hos Hol].
      cbn [map]. unfold stack_entry at 1.
      unfold event_ts in Hkx. cbn [fst snd] in Hkx.
      rewrite dt_sub_same by congruence. cbn [bind].
      rewrite (IH Hkl open_' _ Hol). cbn [combine map].
      rewrite <- app_assoc. reflexivity.
Qed.

(** X6.  Starts followed by ends, in time order: the first end closes the
    last start, the second end the start before it, and so on; starts or
    ends that are left over give nothing. *)
Theorem pair_call_events_nested (starts ends : list call_event) :
  Forall (fun e => is_start e = true) starts ->
  Forall (fun e => is_end e = true) ends ->
  ascending (starts ++ ends) ->
  comparable_timestamps (starts ++ ends) = true ->
  pair_call_events (starts ++ ends)
  = Ok (map (fun p => close_session (fst p) (snd p))
          (combine (rev starts) ends)).
Proof.
  intros Hs He Hasc Hc. apply comparable_kind in Hc. destruct Hc as [b Hb].
  unfold pair_call_events. fold ev_lt.
  rewrite (sorted_asc_ascending b _ Hasc Hb). cbn [bind].
  rewrite (pair_loop_starts _ _ Hs), app_nil_r.
  unfold kind_is in Hb. apply Forall_app in Hb. destruct Hb as [Hbs Hbe].
  rewrite (pair_loop_ends b ends He Hbe (rev starts) []); [reflexivity |].
  apply Forall_rev. exact Hbs.
Qed.

(** X7.  Every session [pair_call_events] emits is made of a start event
    and an end event of its input, the start not later than the end: it
    has the time of the start event as start, the time of the end event
    as end, and the context of the start event, or the placeholder, as
    server. *)
Theorem pair_call_events_from_events
    (events : list call_event) (sessions : list session) :
  pair_call_events events = Ok sessions ->
  Forall (fun s =>
            exists st en,
              In st events /\ In en events
              /\ is_start st = true /\ is_end en = true
              /\ instant (event_ts st) <= instant (event_ts en)
              /\ start s = event_ts st
              /\ end_ s = event_ts en
              /\ server s = py_or (context_of st) (VStr "Unknown/DM"))
         sessions.
Proof.
  intros H. apply pair_call_events_sessions in H.
  eapply Forall_impl; [| exact H].
  intros s
    (et & ctx & et' & ctx' & Hin & Hs & Hin' & He & Hsrv & _ & Hle & _).
  exists (et, start s, ctx), (et', end_ s, ctx').
  repeat split; assumption.
Qed.

(* ================================================================== *)
(** ** [sorted] with [reverse=True] *)

Section DescSort.
Context {A : Type}.
Variable rank : A -> Z.
Variable lt : A -> A -> result bool.
Hypothesis lt_rank : forall x y b, lt x y = Ok b -> b = (rank x <? rank y).

Lemma insert_desc_spec (x : A) (l r : list A) :
  insert_desc lt x l = Ok r ->
  descending_by rank l ->
  Permutation (x :: l) r /\ descending_by rank r.
Proof.
  unfold descending_by.
  revert r. induction l as [| y l IH]; intros r H Hd; simpl in H.
  - inversion H; subst. split; [apply Permutation_refl |].
    constructor; constructor.
  - inv_bind H as b Hb. apply lt_rank in Hb. subst b.
    inversion Hd as [| y' l' Hl Hy]; subst.
    destruct (rank x <? rank y) eqn:E.
    + inv_bind H as r' Hr'. inversion H; subst.
      destruct (IH r' Hr' Hl) as [Hp Hs]. split.
      * apply perm_trans with (y :: x :: l); [apply perm_swap |].
        apply perm_skip. exact Hp.
      * constructor; [exact Hs |].
        apply (Permutation_Forall Hp). constructor; [| exact Hy].
        apply Z.ltb_lt in E. lia.
    + inversion H; subst. split; [apply Permutation_refl |].
      apply Z.ltb_ge in E. constructor; [exact Hd |].
      constructor; [exact E |].
      eapply Forall_impl; [| exact Hy]. intros z Hz. simpl in Hz. lia.
Qed.

Lemma sorted_desc_spec (l r : list A) :
  sorted_desc lt l = Ok r -> Permutation l r /\ descending_by rank r.
Proof.
  revert r. induction l as [| x l IH]; intros r H; simpl in H.
  - inversion H; subst. split; [apply perm_nil | constructor].
  - inv_bind H as s Hs. destruct (IH s Hs) as [Hp Hd].
    destruct (insert_desc_spec x s r H Hd) as [Hp' Hd'].
    split; [| exact Hd'].
    apply perm_trans with (x :: s); [apply perm_skip; exact Hp | exact Hp'].
Qed.

(** The sort is stable: the elements of one rank keep their order. *)
Lemma insert_desc_stable (x : A) (l r : list A) (n : Z) :
  insert_desc lt x l = Ok r ->
  filter (fun e => rank e =? n) r = filter (fun e => rank e =? n) (x :: l).
Proof.
  revert r. induction l as [| y l IH]; intros r H; simpl in H.
  - inversion H; subst. reflexivity.
  - inv_bind H as b Hb. apply lt_rank in Hb. subst b.
    destruct (rank x <? rank y) eqn:E.
    + inv_bind H as r' Hr'. inversion H; subst.
      apply IH in Hr'. cbn [filter] in *. rewrite Hr'.
      apply Z.ltb_lt in E.
      destruct (rank y =? n) eqn:Ey; [| reflexivity].
      apply Z.eqb_eq in Ey.
      assert (Ex : (rank x =? n) = false) by (apply Z.eqb_neq; lia).
      rewrite Ex. reflexivity.
    + inversion H; subst. reflexivity.
Qed.

Lemma sorted_desc_stable (l r : list A) (n : Z) :
  sorted_desc lt l = Ok r ->
  filter (fun e => rank e =? n) r = filter (fun e => rank e =? n) l.
Proof.
  revert r. induction l as [| x l IH]; intros r H; simpl in H.
  - inversion H; subst. reflexivity.
  - inv_bind H as s Hs. apply IH in Hs.
    rewrite (insert_desc_stable x s r n H). cbn [filter].
    rewrite Hs. reflexivity.
Qed.

Lemma insert_desc_total (x : A) (l : list A) :
  (forall y, In y l -> exists b, lt x y = Ok b) ->
  exists r, insert_desc lt x l = Ok r.
Proof.
  induction l as [| y l IH]; intros H; simpl.
  - eexists. reflexivity.
  - destruct (H y (or_introl eq_refl)) as [b Hb]. rewrite Hb. simpl.
    destruct b; [| eexists; reflexivity].
    destruct IH as [r Hr]; [intros z Hz; apply H; right; exact Hz |].
    rewrite Hr. simpl. eexists. reflexivity.
Qed.

Lemma sorted_desc_total (l : list A) :
  (forall x y, In x l -> In y l -> exists b, lt x y = Ok b) ->
  exists r, sorted_desc lt l = Ok r.
Proof.
  induction l as [| x l IH]; intros H; simpl.
  - eexists. reflexivity.
  - destruct IH as [s Hs].
    { intros y z Hy Hz. apply H; right; assumption. }
    rewrite Hs. simpl. apply insert_desc_total.
    intros y Hy. apply H; [left; reflexivity | right].
    destruct (sorted_desc_spec l s Hs) as [Hp _].
    eapply Permutation_in; [apply Permutation_sym; exact Hp | exact Hy].
Qed.

Lemma descending_app (l1 l2 : list A) :
  descending_by rank (l1 ++ l2) ->
  descending_by rank l1 /\ descending_by rank l2
  /\ forall x y, In x l1 -> In y l2 -> rank y <= rank x.
Proof.
  unfold descending_by. induction l1 as [| a l1 IH]; simpl; intros H.
  - split; [constructor |]. split; [exact H |]. intros x y [].
  - inversion H as [| a' l' Hl Ha]; subst.
    destruct (IH Hl) as [H1 [H2 H3]].
    apply Forall_app in Ha. destruct Ha as [Ha1 Ha2].
    split; [constructor; assumption |]. split; [exact H2 |].
    intros x y [-> | Hx] Hy.
    + rewrite Forall_forall in Ha2. apply Ha2. exact Hy.
    + apply H3; assumption.
Qed.

End DescSort.

Lemma count_lt_rank (x y : value * Z) (b : bool) :
  Ok (snd x <? snd y) = Ok b -> b = (snd x <? snd y).
Proof. intros H. inversion H. reflexivity. Qed.

Lemma message_lt_rank (x y : message) (b : bool) :
  dt_lt (timestamp x) (timestamp y) = Ok b ->
  b = (message_rank x <? message_rank y).
Proof. intros H. apply dt_lt_Ok in H. apply H. Qed.

Lemma session_lt_rank (x y : session) (b : bool) :
  dt_lt (start x) (start y) = Ok b ->
  b = (session_rank x <? session_rank y).
Proof. intros H. apply dt_lt_Ok in H. apply H. Qed.

(* ================================================================== *)
(** ** [Counter.most_common] *)

Lemma most_common_all_spec (c : Counter) :
  exists ranked,
    most_common_all c = Ok ranked
    /\ Permutation c ranked
    /\ descending_by snd ranked.
Proof.
  destruct (sorted_desc_total snd _ count_lt_rank c) as [r Hr].
  { intros x y _ _. eexists. reflexivity. }
  exists r. split; [exact Hr |].
  apply (sorted_desc_spec snd _ count_lt_rank). exact Hr.
Qed.

(** C8.  Ranking by count keeps ties in insertion order: the ranking is
    the counter's entries in descending order of count, and the entries
    of any one count stand in it in the order they have in the counter;
    [most_common(n)] is the first [n] of it.  So with counts a:5, b:5,
    c:3 and a inserted before b, the top 2 is a then b, never c. *)
Theorem most_common_stable (c : Counter) :
  exists ranked,
    most_common_all c = Ok ranked
    /\ (forall n, most_common n c = Ok (firstn n ranked))
    /\ Permutation c ranked
    /\ descending_by snd ranked
    /\ (forall k,
          filter (fun e => snd e =? k) ranked
          = filter (fun e => snd e =? k) c)
    /\ (Permutation c [entry_a; entry_b; entry_c] ->
        (exists l1 l2 l3, c = l1 ++ entry_a :: l2 ++ entry_b :: l3) ->
        firstn 2 ranked = [entry_a; entry_b]
        /\ ~ In entry_c (firstn 2 ranked)).
Proof.
  destruct (most_common_all_spec c) as [ranked [Hr [Hp Hd]]].
  exists ranked. split; [exact Hr |].
  split; [intros n; unfold most_common; rewrite Hr; reflexivity |].
  split; [exact Hp |]. split; [exact Hd |].
  split.
  - intros k. apply (sorted_desc_stable snd _ count_lt_rank c ranked k Hr).
  - intros Hperm Hbefore.
    destruct (most_common_tie_stable c Hperm Hbefore) as [H2 _].
    unfold most_common in H2. rewrite Hr in H2. cbn [bind] in H2.
    assert (E : firstn 2 ranked = [entry_a; entry_b]) by congruence.
    rewrite E. split; [reflexivity |].
    intros [Hin | [Hin | []]]; discriminate Hin.
Qed.

(** X8.  [most_common(n)] never raises.  It returns [n] entries of the
    counter, or all of them when there are fewer, largest count first,
    and no entry it leaves out has a larger count than one it returns. *)
Theorem most_common_top (n : nat) (c : Counter) :
  exists top rest,
    most_common n c = Ok top
    /\ Permutation c (top ++ rest)
    /\ List.length top = Nat.min n (List.length c)
    /\ descending_by snd top
    /\ (forall x y, In x top -> In y rest -> snd y <= snd x).
Proof.
  destruct (most_common_all_spec c) as [ranked [Hr [Hp Hd]]].
  exists (firstn n ranked), (skipn n ranked).
  unfold most_common. rewrite Hr. simpl.
  split; [reflexivity |].
  rewrite firstn_skipn. split; [exact Hp |].
  split; [rewrite length_firstn, (Permutation_length Hp); reflexivity |].
  rewrite <- (firstn_skipn n ranked) in Hd.
  destruct (descending_app snd _ _ Hd) as [H1 [_ H3]].
  split; assumption.
Qed.


(* ================================================================== *)
(** ** More on the reading loop *)

Lemma py_eqb_str_r (a : value) (name : string) :
  py_eqb a (VStr name) = true -> a = VStr name.
Proof.
  destruct a; simpl; intros H; try discriminate H.
  apply String.eqb_eq in H. subst. reflexivity.
Qed.

Lemma py_eqb_str_l (name : string) (a : value) :
  py_eqb (VStr name) a = true -> a = VStr name.
Proof.
  destruct a; simpl; try discriminate.
  intros H. apply String.eqb_eq in H. subst. reflexivity.
Qed.

Lemma py_eqb_str_refl (name : string) : py_eqb (VStr name) (VStr name) = true.
Proof. simpl. apply String.eqb_refl. Qed.

(** Against a string, a key is found by equality alone. *)
Lemma key_eqb_str_r (a : value) (name : string) :
  key_eqb a (VStr name) = py_eqb a (VStr name).
Proof. destruct a as [| | | f | | |]; try reflexivity. destruct f; reflexivity. Qed.

Lemma key_eqb_str_l (name : string) (a : value) :
  key_eqb (VStr name) a = py_eqb (VStr name) a.
Proof. reflexivity. Qed.

(** Looking up a string key after an increment. *)
Lemma counter_get_str_add1 (name : string) (k : value) (c : Counter) :
  counter_get (VStr name) (counter_add1 k c)
  = counter_get (VStr name) c + (if py_eqb k (VStr name) then 1 else 0).
Proof.
  induction c as [| [k' m] rest IH]; simpl.
  - rewrite key_eqb_str_r. destruct (py_eqb k (VStr name)); reflexivity.
  - rewrite <- (key_eqb_str_r k name) in *.
    destruct (key_eqb k' k) eqn:Ek; simpl.
    + destruct (key_eqb k' (VStr name)) eqn:En.
      * rewrite key_eqb_str_r in En. apply py_eqb_str_r in En. subst k'.
        rewrite key_eqb_str_l in Ek. apply py_eqb_str_l in Ek. subst k.
        rewrite key_eqb_str_l, py_eqb_str_refl. reflexivity.
      * destruct (key_eqb k (VStr name)) eqn:Ekn; [| lia].
        rewrite key_eqb_str_r in Ekn. apply py_eqb_str_r in Ekn. subst k.
        rewrite Ek in En. discriminate En.
    + destruct (key_eqb k' (VStr name)) eqn:En; [| exact IH].
      destruct (key_eqb k (VStr name)) eqn:Ekn; [| lia].
      rewrite key_eqb_str_r in En, Ekn.
      apply py_eqb_str_r in En, Ekn. subst k k'.
      rewrite key_eqb_str_l, py_eqb_str_refl in Ek. discriminate Ek.
Qed.

Lemma counter_add1_keys (k : value) (c : Counter) :
  exists tail, map fst (counter_add1 k c) = map fst c ++ tail.
Proof.
  induction c as [| [k' m] rest [tail IH]]; simpl.
  - exists [k]. reflexivity.
  - destruct (key_eqb k' k); simpl.
    + exists []. rewrite app_nil_r. reflexivity.
    + exists tail. rewrite IH. reflexivity.
Qed.

Lemma counter_add1_sound (k : value) (c : Counter) :
  truthy k = true -> hashable k = true ->
  Forall sound_entry c -> Forall sound_entry (counter_add1 k c).
Proof.
  intros Ht Hh. induction 1 as [| [k' m] rest Hkm Hrest IH]; simpl.
  - constructor; [| constructor]. repeat split; simpl; [assumption .. | lia].
  - destruct (key_eqb k' k).
    + constructor; [| exact Hrest].
      destruct Hkm as [H1 [H2 H3]]. repeat split; simpl in *;
        [assumption .. | lia].
    + constructor; assumption.
Qed.

Section ReadingLoop.
Variable json_loads : string -> option value.
Variable fromisoformat : string -> option datetime.

(** What one iteration does to the accumulators. *)
Lemma analyze_line_step (st st' : analysis) (line : string) :
  analyze_line json_loads fromisoformat st line = Ok st' ->
  (if counted_line json_loads line
   then event_counts st'
        = counter_add1 (line_event_type json_loads line) (event_counts st)
        /\ hashable (line_event_type json_loads line) = true
   else st' = st)
  /\ ((call_events st' = call_events st /\ messages st' = messages st)
      \/ (exists name dt ctx iso,
            counted_line json_loads line = true
            /\ fromisoformat iso = Some dt
            /\ str_in name (CALL_START_EVENTS ++ CALL_END_EVENTS) = true
            /\ call_events st' = call_events st ++ [(name, dt, ctx)]
            /\ messages st' = messages st)
      \/ (exists m iso,
            counted_line json_loads line = true
            /\ fromisoformat iso = Some (timestamp m)
            /\ call_events st' = call_events st
            /\ messages st' = messages st ++ [m])).
Proof.
  unfold analyze_line, counted_line, line_event_type.
  destruct (json_loads line) as [record |];
    [| intros H; inversion H; subst; split; [reflexivity | left; split; reflexivity]].
  destruct record; simpl; try discriminate.
  fold (field d "event_type").
  destruct (truthy (field d "event_type")) eqn:Et; simpl;
    [| intros H; inversion H; subst; split; [reflexivity | left; split; reflexivity]].
  unfold counter_incr.
  destruct (hashable (field d "event_type")) eqn:Eh; simpl; [| discriminate].
  fold (field d "timestamp").
  destruct (truthy (field d "timestamp")); simpl;
    [| intros H; inversion H; subst; simpl;
       split; [split; reflexivity | left; split; reflexivity]].
  destruct (normalize_timestamp (field d "timestamp")) as [iso |]; simpl;
    [| discriminate].
  destruct (fromisoformat iso) as [dt |] eqn:Eiso; [| discriminate].
  destruct (field d "event_type") as [| | | | name | |];
    try (intros H; inversion H; subst; simpl;
         split; [split; reflexivity | left; split; reflexivity]).
  match goal with
  | |- context [if ?c then _ else _] => destruct c eqn:Ecall
  end.
  - intros H; inversion H; subst; simpl.
    split; [split; reflexivity |]. right; left.
    eexists name, dt, _, iso.
    split; [reflexivity |]. split; [exact Eiso |].
    split; [exact Ecall |]. split; reflexivity.
  - destruct (String.eqb name MESSAGE_EVENT).
    + intros H; inversion H; subst; simpl.
      split; [split; reflexivity |]. right; right.
      eexists _, iso. repeat split. exact Eiso.
    + intros H; inversion H; subst; simpl.
      split; [split; reflexivity | left; split; reflexivity].
Qed.

Lemma analyze_file_inv (lines : list string) (r : analysis) :
  analyze_file json_loads fromisoformat lines = Ok r ->
  exists st,
    analyze_lines json_loads fromisoformat empty_analysis lines = Ok st
    /\ event_counts r = event_counts st
    /\ call_events r = call_events st
    /\ Permutation (messages st) (messages r)
    /\ descending_by message_rank (messages r).
Proof.
  unfold analyze_file. intros H. inv_bind H as st Hst.
  inv_bind H as msgs Hmsgs. inversion H; subst. simpl.
  exists st. split; [exact Hst |]. split; [reflexivity |].
  split; [reflexivity |].
  apply (sorted_desc_spec message_rank _ message_lt_rank). exact Hmsgs.
Qed.

Lemma analyze_file_raises_at (pre post : list string) (st : analysis)
    (line : string) (e : exn) :
  analyze_lines json_loads fromisoformat empty_analysis pre = Ok st ->
  analyze_line json_loads fromisoformat st line = Raise e ->
  analyze_file json_loads fromisoformat (pre ++ line :: post) = Raise e.
Proof.
  intros Hpre Hline. unfold analyze_file.
  rewrite analyze_lines_app, Hpre. simpl. rewrite Hline. reflexivity.
Qed.

(** X10.  A line that is valid JSON but not an object (a number, a
    string, a list, [null], ...) is not skipped: the loop raises
    [AttributeError] on it and [analyze_file] ends with that exception. *)
Theorem analyze_file_non_object_raises
    (pre post : list string) (st : analysis) (line : string) (v : value) :
  json_loads line = Some v ->
  (forall d, v <> VDict d) ->
  analyze_lines json_loads fromisoformat empty_analysis pre = Ok st ->
  analyze_line json_loads fromisoformat st line = Raise AttributeError
  /\ analyze_file json_loads fromisoformat (pre ++ line :: post)
     = Raise AttributeError.
Proof.
  intros Hv Hnd Hpre.
  assert (Hline : analyze_line json_loads fromisoformat st line
                  = Raise AttributeError).
  { unfold analyze_line. rewrite Hv.
    destruct v; try reflexivity. contradiction (Hnd d eq_refl). }
  split; [exact Hline |].
  apply analyze_file_raises_at with (st := st); assumption.
Qed.

(** X11.  An [event_type] that is a non-empty list or object cannot be
    a key of the counter: the loop raises [TypeError] and [analyze_file]
    ends with that exception. *)
Theorem analyze_file_unhashable_event_type_raises
    (pre post : list string) (st : analysis) (line : string)
    (d : list (string * value)) (et : value) :
  json_loads line = Some (VDict d) ->
  dict_get d "event_type" = Some et ->
  truthy et = true ->
  hashable et = false ->
  analyze_lines json_loads fromisoformat empty_analysis pre = Ok st ->
  analyze_line json_loads fromisoformat st line = Raise TypeError
  /\ analyze_file json_loads fromisoformat (pre ++ line :: post)
     = Raise TypeError.
Proof.
  intros Hd Het Ht Hh Hpre.
  assert (Hline : analyze_line json_loads fromisoformat st line
                  = Raise TypeError).
  { unfold analyze_line. rewrite Hd. simpl. rewrite Het, Ht. simpl.
    unfold counter_incr. rewrite Hh. reflexivity. }
  split; [exact Hline |].
  apply analyze_file_raises_at with (st := st); assumption.
Qed.

(** X12.  A [timestamp] that is truthy but not a string (a number, a
    list, [true], ...) on a record with a valid event type makes the
    loop raise [AttributeError], and [analyze_file] with it. *)
Theorem analyze_file_non_string_timestamp_raises
    (pre post : list string) (st : analysis) (line : string)
    (d : list (string * value)) (et ts : value) :
  json_loads line = Some (VDict d) ->
  dict_get d "event_type" = Some et ->
  truthy et = true ->
  hashable et = true ->
  dict_get d "timestamp" = Some ts ->
  truthy ts = true ->
  (forall s, ts <> VStr s) ->
  analyze_lines json_loads fromisoformat empty_analysis pre = Ok st ->
  analyze_line json_loads fromisoformat st line = Raise AttributeError
  /\ analyze_file json_loads fromisoformat (pre ++ line :: post)
     = Raise AttributeError.
Proof.
  intros Hd Het Ht Hh Hts Htt Hns Hpre.
  assert (Hline : analyze_line json_loads fromisoformat st line
                  = Raise AttributeError).
  { unfold analyze_line. rewrite Hd. simpl. rewrite Het, Ht. simpl.
    unfold counter_incr. rewrite Hh. simpl. rewrite Hts, Htt. simpl.
    destruct ts; try reflexivity. contradiction (Hns s eq_refl). }
  split; [exact Hline |].
  apply analyze_file_raises_at with (st := st); assumption.
Qed.

(** X13.  A line that is not valid JSON is skipped without a trace: the
    accumulators stay as they are, and [analyze_file] gives what it gives
    on the file without that line. *)
Theorem analyze_file_skips_undecodable (line : string) :
  json_loads line = None ->
  (forall st, analyze_line json_loads fromisoformat st line = Ok st)
  /\ (forall pre post,
         analyze_file json_loads fromisoformat (pre ++ line :: post)
         = analyze_file json_loads fromisoformat (pre ++ post)).
Proof.
  intros Hn.
  assert (Hskip : forall st,
             analyze_line json_loads fromisoformat st line = Ok st).
  { intros st. unfold analyze_line. rewrite Hn. reflexivity. }
  split; [exact Hskip |].
  intros pre post. unfold analyze_file. rewrite !analyze_lines_app. simpl.
  destruct (analyze_lines json_loads fromisoformat empty_analysis pre)
    as [st1 | e]; simpl; [| reflexivity].
  rewrite Hskip. reflexivity.
Qed.

(** X14.  A [timestamp] that is present but falsy ([null], the empty
    string, zero) is treated as a missing one: the event type is counted
    and the record goes to neither list; no attempt is made to parse
    it. *)
Theorem analyze_line_falsy_timestamp
    (st : analysis) (line : string) (d : list (string * value))
    (et ts : value) :
  json_loads line = Some (VDict d) ->
  dict_get d "event_type" = Some et ->
  truthy et = true ->
  hashable et = true ->
  dict_get d "timestamp" = Some ts ->
  truthy ts = false ->
  analyze_line json_loads fromisoformat st line
  = Ok {| event_counts := counter_add1 et (event_counts st);
          call_events := call_events st;
          messages := messages st |}.
Proof.
  intros Hd Het Ht Hh Hts Htf. unfold analyze_line. rewrite Hd. simpl.
  rewrite Het, Ht. simpl. unfold counter_incr. rewrite Hh. simpl.
  rewrite Hts, Htf. reflexivity.
Qed.

Lemma analyze_line_count_of (name : string) (st st' : analysis)
    (line : string) :
  analyze_line json_loads fromisoformat st line = Ok st' ->
  counter_get (VStr name) (event_counts st')
  = counter_get (VStr name) (event_counts st)
    + (if has_event_type json_loads name line then 1 else 0).
Proof.
  intros H. apply analyze_line_step in H. destruct H as [H _].
  unfold counted_line, line_event_type, has_event_type in *.
  destruct (json_loads line) as [[| | | | | | d] |];
    try (subst st'; lia).
  destruct (truthy (field d "event_type")); [| subst st'; simpl; lia].
  destruct H as [H _]. rewrite H, counter_get_str_add1. reflexivity.
Qed.

Lemma analyze_lines_count_of (name : string) (lines : list string) :
  forall st st',
    analyze_lines json_loads fromisoformat st lines = Ok st' ->
    counter_get (VStr name) (event_counts st')
    = counter_get (VStr name) (event_counts st)
      + count_lines (has_event_type json_loads name) lines.
Proof.
  unfold count_lines.
  induction lines as [| line rest IH]; intros st st' H; simpl in H.
  - inversion H; subst. simpl. lia.
  - inv_bind H as st1 H1. apply (analyze_line_count_of name) in H1.
    apply IH in H. cbn [filter].
    destruct (has_event_type json_loads name line); cbn [List.length];
      rewrite ?Nat2Z.inj_succ; lia.
Qed.

(** X15.  When [analyze_file] returns, the count it holds for an event
    type is the number of lines whose [event_type] is that string, and
    zero for a type that never occurs; so the number of streams [main]
    reports is the number of [video_stream_started] lines. *)
Theorem analyze_file_count_per_type
    (name : string) (lines : list string) (r : analysis) :
  analyze_file json_loads fromisoformat lines = Ok r ->
  counter_get (VStr name) (event_counts r)
  = count_lines (has_event_type json_loads name) lines
  /\ stream_count r
     = count_lines (has_event_type json_loads STREAM_START_EVENT) lines.
Proof.
  intros H. apply analyze_file_inv in H.
  destruct H as (st & Hst & Hc & _). unfold stream_count. rewrite Hc.
  split.
  - apply (analyze_lines_count_of name) in Hst. simpl in Hst. lia.
  - apply (analyze_lines_count_of STREAM_START_EVENT) in Hst.
    simpl in Hst. lia.
Qed.

Lemma str_in_app (s : string) (a b : list string) :
  str_in s (a ++ b) = (str_in s a || str_in s b)%bool.
Proof. unfold str_in. apply existsb_app. Qed.

Lemma analyze_line_lists_sound (st st' : analysis) (line : string) :
  analyze_line json_loads fromisoformat st line = Ok st' ->
  lists_sound st -> lists_sound st'.
Proof.
  intros H [Hc Hn]. pose proof (analyze_line_counts _ _ _ _ _ H) as Htot.
  apply analyze_line_step in H. destruct H as [_ H]. unfold lists_sound.
  destruct H as [[E1 E2] | [(name & dt & ctx & iso & Hcnt & _ & Hin & E1 & E2)
                           | (m & iso & Hcnt & _ & E1 & E2)]];
    rewrite E1, E2.
  - split; [exact Hc |]. destruct (counted_line json_loads line); lia.
  - rewrite Hcnt in Htot. split.
    + apply Forall_app. split; [exact Hc |].
      constructor; [| constructor].
      unfold is_start, is_end, event_type_of. cbn [fst].
      rewrite str_in_app in Hin. apply orb_true_iff in Hin. exact Hin.
    + rewrite length_app. cbn [List.length]. lia.
  - rewrite Hcnt in Htot. split; [exact Hc |].
    rewrite length_app. cbn [List.length]. lia.
Qed.

Lemma analyze_lines_lists_sound (lines : list string) :
  forall st st',
    analyze_lines json_loads fromisoformat st lines = Ok st' ->
    lists_sound st -> lists_sound st'.
Proof.
  induction lines as [| line rest IH]; intros st st' H Hs; simpl in H.
  - inversion H; subst. exact Hs.
  - inv_bind H as st1 H1. apply (IH st1 st' H).
    apply (analyze_line_lists_sound st st1 line H1 Hs).
Qed.

(** X16.  When [analyze_file] returns, [call_events] holds start and end
    events only, and the call events and messages together are no more
    than the records counted: a record goes to at most one of the two
    lists, and only after it has been counted. *)
Theorem analyze_file_lists_sound (lines : list string) (r : analysis) :
  analyze_file json_loads fromisoformat lines = Ok r ->
  Forall (fun e => is_start e = true \/ is_end e = true) (call_events r)
  /\ Z.of_nat (List.length (call_events r) + List.length (messages r))
     <= counter_total (event_counts r).
Proof.
  intros H. apply analyze_file_inv in H.
  destruct H as (st & Hst & Hc & He & Hp & _).
  apply analyze_lines_lists_sound in Hst.
  - destruct Hst as [H1 H2]. rewrite Hc, He, <- (Permutation_length Hp).
    split; assumption.
  - split; [constructor | simpl; lia].
Qed.

(** X17.  The messages [analyze_file] returns are the messages the loop
    collected, newest first; the call events are returned in the order
    the loop collected them. *)
Theorem analyze_file_messages_newest_first
    (lines : list string) (r : analysis) :
  analyze_file json_loads fromisoformat lines = Ok r ->
  descending_by message_rank (messages r)
  /\ exists st,
       analyze_lines json_loads fromisoformat empty_analysis lines = Ok st
       /\ Permutation (messages st) (messages r)
       /\ call_events r = call_events st.
Proof.
  intros H. apply analyze_file_inv in H.
  destruct H as (st & Hst & _ & He & Hp & Hd).
  split; [exact Hd |]. exists st. repeat split; assumption.
Qed.

Lemma well_formed_lineb_sound (kind : bool) (line : string) :
  well_formed_lineb json_loads fromisoformat kind line = true ->
  well_formed_line json_loads fromisoformat kind line.
Proof.
  unfold well_formed_lineb, well_formed_line.
  destruct (json_loads line) as [[| | | | | | d] |];
    try discriminate; [| intros _; exact I].
  intros H. apply orb_true_iff in H. destruct H as [H | H].
  - left. apply negb_true_iff in H. exact H.
  - apply andb_true_iff in H. destruct H as [Hh H]. right.
    split; [exact Hh |]. apply orb_true_iff in H. destruct H as [H | H].
    + left. apply negb_true_iff in H. exact H.
    + right. destruct (field d "timestamp"); try discriminate H.
      destruct (fromisoformat (replace "Z"%char "+00:00" (strip dquote s)))
        as [dt |] eqn:E; [| discriminate H].
      exists s, dt. split; [reflexivity |]. split; [exact E |].
      apply eqb_prop. exact H.
Qed.

Lemma analyze_line_well_formed (kind : bool) (st : analysis)
    (line : string) :
  well_formed_line json_loads fromisoformat kind line ->
  kinds_are kind st ->
  exists st',
    analyze_line json_loads fromisoformat st line = Ok st'
    /\ kinds_are kind st'.
Proof.
  unfold well_formed_line, analyze_line. intros Hwf [Hk Hm].
  destruct (json_loads line) as [[| | | | | | d] |];
    try contradiction; [| exists st; split; [reflexivity | split; assumption]].
  simpl. fold (field d "event_type") (field d "timestamp").
  destruct Hwf as [Hf | [Hh Hts]].
  - rewrite Hf. simpl. exists st. split; [reflexivity | split; assumption].
  - destruct (truthy (field d "event_type")); simpl;
      [| exists st; split; [reflexivity | split; assumption]].
    unfold counter_incr. rewrite Hh. simpl.
    destruct (truthy (field d "timestamp")) eqn:Et; simpl;
      [| eexists; split; [reflexivity | split; assumption]].
    destruct Hts as [Hts | (s & dt & Es & Eiso & Ea)];
      [discriminate Hts |].
    rewrite Es. simpl. rewrite Eiso.
    destruct (field d "event_type");
      try (eexists; split; [reflexivity | split; assumption]).
    match goal with
    | |- context [if ?c then _ else _] => destruct c
    end.
    + eexists; split; [reflexivity |]. split; simpl; [| exact Hm].
      apply Forall_app. split; [exact Hk |].
      constructor; [exact Ea | constructor].
    + destruct (String.eqb s0 MESSAGE_EVENT).
      * eexists; split; [reflexivity |]. split; simpl; [exact Hk |].
        apply Forall_app. split; [exact Hm |].
        constructor; [exact Ea | constructor].
      * eexists; split; [reflexivity | split; assumption].
Qed.

Lemma analyze_lines_well_formed (kind : bool) (lines : list string) :
  Forall (well_formed_line json_loads fromisoformat kind) lines ->
  forall st,
    kinds_are kind st ->
    exists st',
      analyze_lines json_loads fromisoformat st lines = Ok st'
      /\ kinds_are kind st'.
Proof.
  induction 1 as [| line rest Hl Hrest IH]; intros st Hs; simpl.
  - exists st. split; [reflexivity | exact Hs].
  - destruct (analyze_line_well_formed kind st line Hl Hs) as [st1 [H1 Hs1]].
    rewrite H1. simpl. apply IH. exact Hs1.
Qed.

(** X18.  When on every line [json.loads] raises [JSONDecodeError] or
    returns an object whose event type is falsy, or hashable with a
    timestamp that is falsy or a string [fromisoformat] accepts, the
    accepted timestamps all with a UTC offset or all without, then
    [analyze_file] returns and [pair_call_events] returns on its call
    events. *)
Theorem analyze_then_pair_returns (kind : bool) (lines : list string) :
  Forall (well_formed_line json_loads fromisoformat kind) lines ->
  exists r sessions,
    analyze_file json_loads fromisoformat lines = Ok r
    /\ pair_call_events (call_events r) = Ok sessions.
Proof.
  intros Hwf.
  destruct (analyze_lines_well_formed kind lines Hwf empty_analysis)
    as [st [Hst [Hk Hm]]]; [split; constructor |].
  destruct (sorted_desc_total message_rank _ message_lt_rank (messages st))
    as [msgs Hmsgs].
  { intros x y Hx Hy. rewrite Forall_forall in Hm.
    rewrite dt_lt_same by (rewrite (Hm x Hx), (Hm y Hy); reflexivity).
    eexists. reflexivity. }
  assert (Hc : comparable_timestamps (call_events st) = true)
    by (apply comparable_kind; exists kind; exact Hk).
  apply pair_call_events_returns in Hc. destruct Hc as [sessions Hsess].
  eexists. exists sessions. unfold analyze_file. rewrite Hst. simpl.
  rewrite Hmsgs. simpl. split; [reflexivity | exact Hsess].
Qed.

Lemma analyze_line_keys (st st' : analysis) (line : string) :
  analyze_line json_loads fromisoformat st line = Ok st' ->
  (exists tail,
      map fst (event_counts st') = map fst (event_counts st) ++ tail)
  /\ (Forall sound_entry (event_counts st) ->
      Forall sound_entry (event_counts st')).
Proof.
  intros H. apply analyze_line_step in H. destruct H as [H _].
  unfold counted_line, line_event_type in H.
  assert (Hsame : st' = st ->
            (exists tail,
                map fst (event_counts st') = map fst (event_counts st) ++ tail)
            /\ (Forall sound_entry (event_counts st) ->
                Forall sound_entry (event_counts st'))).
  { intros ->. split; [exists []; rewrite app_nil_r; reflexivity | auto]. }
  destruct (json_loads line) as [[| | | | | | d] |]; try (apply Hsame; exact H).
  destruct (truthy (field d "event_type")) eqn:Et; [| apply Hsame; exact H].
  destruct H as [H Hh]. rewrite H. split.
  - apply counter_add1_keys.
  - apply counter_add1_sound; assumption.
Qed.

Lemma analyze_lines_keys (lines : list string) :
  forall st st',
    analyze_lines json_loads fromisoformat st lines = Ok st' ->
    (exists tail,
        map fst (event_counts st') = map fst (event_counts st) ++ tail)
    /\ (Forall sound_entry (event_counts st) ->
        Forall sound_entry (event_counts st')).
Proof.
  induction lines as [| line rest IH]; intros st st' H; simpl in H.
  - inversion H; subst. split; [exists []; rewrite app_nil_r; reflexivity | auto].
  - inv_bind H as st1 H1. apply analyze_line_keys in H1.
    apply IH in H. destruct H1 as [[t1 E1] S1], H as [[t2 E2] S2]. split.
    + exists (t1 ++ t2). rewrite E2, E1, app_assoc. reflexivity.
    + auto.
Qed.

(** X19.  Every entry of [event_counts] has a truthy, hashable key and a
    count of at least one, and reading more lines never reorders or
    removes the event types already seen: the keys after a first part of
    the file are a prefix of the keys after the whole file. *)
Theorem analyze_file_counter_keys (pre post : list string) (r : analysis) :
  analyze_file json_loads fromisoformat (pre ++ post) = Ok r ->
  Forall sound_entry (event_counts r)
  /\ exists st tail,
       analyze_lines json_loads fromisoformat empty_analysis pre = Ok st
       /\ map fst (event_counts r) = map fst (event_counts st) ++ tail.
Proof.
  intros H. apply analyze_file_inv in H. destruct H as (st & Hst & Hc & _).
  rewrite Hc. split.
  - apply analyze_lines_keys in Hst. apply Hst. constructor.
  - rewrite analyze_lines_app in Hst. inv_bind Hst as st1 H1.
    apply analyze_lines_keys in Hst. destruct Hst as [[tail E] _].
    exists st1, tail. split; [exact H1 | exact E].
Qed.

End ReadingLoop.

(* ================================================================== *)
(** ** [main] *)

Lemma totals_loop_returns (sessions : list session) :
  forall t,
    (exists t', totals_loop sessions t = Ok t')
    <-> Forall (fun s => hashable (server s) = true) sessions.
Proof.
  induction sessions as [| s rest IH]; intros t; simpl.
  - split; [constructor | eexists; reflexivity].
  - destruct (hashable (server s)) eqn:E.
    + rewrite IH. split; [intros H; constructor; assumption |].
      intros H. inversion H; assumption.
    + split; [intros [t' H]; discriminate H |].
      intros H. inversion H; subst. congruence.
Qed.

Lemma totals_loop_raises (sessions : list session) :
  Exists (fun s => hashable (server s) = false) sessions ->
  forall t, totals_loop sessions t = Raise TypeError.
Proof.
  induction sessions as [| s rest IH]; intros Hex t; [inversion Hex |].
  simpl. destruct (hashable (server s)) eqn:E; [| reflexivity].
  apply IH. inversion Hex as [x l Hx | x l Hl]; subst; [congruence | exact Hl].
Qed.

Lemma export_event_counts_returns
    (fmt_other : value -> string) (counts : Counter) :
  exists lines,
    export_event_counts fmt_other counts = Ok lines
    /\ List.length lines = List.length counts.
Proof.
  destruct (most_common_all_spec counts) as [ranked [Hr [Hp _]]].
  unfold export_event_counts. rewrite Hr. simpl. eexists.
  split; [reflexivity |].
  rewrite length_map. symmetry. apply Permutation_length. exact Hp.
Qed.

Lemma most_common_returns (n : nat) (c : Counter) :
  exists top, most_common n c = Ok top.
Proof.
  destruct (most_common_all_spec c) as [ranked [Hr _]].
  unfold most_common. rewrite Hr. simpl. eexists. reflexivity.
Qed.

(** The sessions of one run can be sorted by their start. *)
Lemma sessions_sort_returns
    (events : list call_event) (sessions : list session) :
  pair_call_events events = Ok sessions ->
  exists sessions_sorted,
    sorted_desc (fun x y => dt_lt (start x) (start y)) sessions
    = Ok sessions_sorted.
Proof.
  intros H.
  assert (Hc : comparable_timestamps events = true)
    by (apply pair_call_events_returns; exists sessions; exact H).
  apply comparable_kind in Hc. destruct Hc as [b Hb].
  apply pair_call_events_sessions in H.
  apply (sorted_desc_total session_rank _ session_lt_rank).
  unfold kind_is in Hb.
  intros x y Hx Hy. rewrite Forall_forall in H, Hb.
  destruct (H x Hx) as (et & ctx & _ & _ & Hinx & _).
  destruct (H y Hy) as (et' & ctx' & _ & _ & Hiny & _).
  apply Hb in Hinx, Hiny. unfold event_ts in Hinx, Hiny. simpl in *.
  rewrite dt_lt_same by congruence. eexists. reflexivity.
Qed.

Section MainFacts.
Variable json_loads : string -> option value.
Variable fromisoformat : string -> option datetime.
Variable isoformat : datetime -> string.
Variable strftime : datetime -> string.
Variable fmt_other : value -> string.

(** X20.  [main] fails before it writes anything when [analyze_file]
    raises, when [pair_call_events] raises, and when the server of a
    session cannot be hashed (a [guild_id] that is a list or an object):
    it ends with that exception, a [TypeError] in the last case, and no
    report file has been written. *)
Theorem main_fails_before_writing (lines : list string) :
  (forall e,
      analyze_file json_loads fromisoformat lines = Raise e ->
      main json_loads fromisoformat isoformat strftime fmt_other
        (Some lines) = ([], Raise e))
  /\ (forall data e,
         analyze_file json_loads fromisoformat lines = Ok data ->
         pair_call_events (call_events data) = Raise e ->
         main json_loads fromisoformat isoformat strftime fmt_other
           (Some lines) = ([], Raise e))
  /\ (forall data sessions,
         analyze_file json_loads fromisoformat lines = Ok data ->
         pair_call_events (call_events data) = Ok sessions ->
         Exists (fun s => hashable (server s) = false) sessions ->
         main json_loads fromisoformat isoformat strftime fmt_other
           (Some lines) = ([], Raise TypeError)).
Proof.
  unfold main. split; [| split].
  - intros e Ha. rewrite Ha. reflexivity.
  - intros data e Ha Hp. rewrite Ha, Hp. reflexivity.
  - intros data sessions Ha Hp Hex. rewrite Ha, Hp.
    destruct (sessions_sort_returns _ _ Hp) as [sessions_sorted Hsort].
    destruct (sorted_desc_spec session_rank _ session_lt_rank _ _ Hsort)
      as [Hperm _].
    assert (Hex' : Exists (fun s => hashable (server s) = false)
                     sessions_sorted).
    { apply Exists_exists in Hex. destruct Hex as [s [Hin Hs]].
      apply Exists_exists. exists s. split; [| exact Hs].
      eapply Permutation_in; [exact Hperm | exact Hin]. }
    unfold call_reports. destruct sessions as [| s rest];
      [inversion Hex |].
    rewrite Hsort. cbn [bind].
    rewrite (totals_loop_raises _ Hex' []). reflexivity.
Qed.

(** X21.  When [main] ends normally on a file, [analyze_file] and
    [pair_call_events] have returned, every session has a hashable
    server, and the files written are, in this order: the call sessions
    as CSV and as JSON, both in the same order, latest start first, and
    only if there is a session; the messages log, only if there is a
    message; and the event counts, always, with one line per event
    type. *)
Theorem main_reports (lines : list string) (log : list report) :
  main json_loads fromisoformat isoformat strftime fmt_other (Some lines)
  = (log, Ok tt) ->
  exists data sessions sessions_sorted count_lines',
    analyze_file json_loads fromisoformat lines = Ok data
    /\ pair_call_events (call_events data) = Ok sessions
    /\ Forall (fun s => hashable (server s) = true) sessions
    /\ Permutation sessions sessions_sorted
    /\ descending_by session_rank sessions_sorted
    /\ List.length count_lines' = List.length (event_counts data)
    /\ log
       = match sessions with
         | [] => []
         | _ => [ Calls_csv (map (csv_of_session isoformat) sessions_sorted);
                  Calls_json (map (json_of_session isoformat) sessions_sorted) ]
         end
         ++ match messages data with
            | [] => []
            | _ => [ Messages_txt
                       (export_messages_log strftime fmt_other
                          (messages data)) ]
            end
         ++ [Event_counts_txt count_lines'].
Proof.
  unfold main.
  destruct (analyze_file json_loads fromisoformat lines) as [data | e1];
    [| discriminate].
  destruct (pair_call_events (call_events data)) as [sessions | e2] eqn:Ep;
    [| discriminate].
  destruct (call_reports isoformat sessions) as [calls | e3] eqn:Ec;
    [| discriminate].
  destruct (most_common_returns 10 (event_counts data)) as [top Htop].
  destruct (export_event_counts_returns fmt_other (event_counts data))
    as [lines' [Hl Hlen]].
  rewrite Htop, Hl. intros H. inversion H; subst log. clear H.
  exists data, sessions.
  unfold call_reports in Ec. destruct sessions as [| s rest].
  - inversion Ec; subst calls. exists [], lines'.
    split; [reflexivity |]. split; [exact Ep |].
    split; [constructor |].
    split; [constructor |]. split; [constructor |].
    split; [exact Hlen | reflexivity].
  - inv_bind Ec as sessions_sorted Hsort. inv_bind Ec as t Ht.
    unfold export_call_sessions in Ec. inversion Ec; subst calls.
    exists sessions_sorted, lines'.
    destruct (sorted_desc_spec session_rank _ session_lt_rank _ _ Hsort)
      as [Hp Hd].
    split; [reflexivity |]. split; [exact Ep |].
    split.
    { apply (Permutation_Forall (Permutation_sym Hp)).
      apply (totals_loop_returns sessions_sorted []). exists t. exact Ht. }
    split; [exact Hp |]. split; [exact Hd |].
    split; [exact Hlen | reflexivity].
Qed.

End MainFacts.

(* ================================================================== *)
(** ** Instances of the further properties *)

Example sample_main :
  main PyLib.json_loads PyLib.fromisoformat PyLib.isoformat
    sample_strftime sample_fmt_other (Some sample_lines)
  = ( [ Calls_csv
          [ {| Server_Channel := VStr "42";
               Start := "2021-03-04T12:00:00+00:00";
               End_ := "2021-03-04T12:30:00.500000+00:00";
               Duration_Readble := "0h 30m 0s";
               Duration_Sec := 1800 |} ];
        Calls_json
          [ {| j_server := VStr "42";
               j_start := "2021-03-04T12:00:00+00:00";
               j_end := "2021-03-04T12:30:00.500000+00:00";
               j_duration_readable := "0h 30m 0s";
               j_duration_sec := 1800500000 # 1000000 |} ];
        Messages_txt
          [ ("--- Sent Messages Log ---" ++ newline ++ newline)%string;
            ("[2021-03-04 12:10:00] Channel 7 — Len: 12, Words: 3"
             ++ newline)%string ];
        Event_counts_txt
          [ ("join_call: 1" ++ newline)%string;
            ("send_message: 1" ++ newline)%string;
            ("voice_disconnect: 1" ++ newline)%string;
            ("app_opened: 1" ++ newline)%string ] ],
      Ok tt ).
Proof. vm_compute. reflexivity. Qed.

Lemma format_duration_parts_witness :
  exists h m s,
    format_duration (7451 # 2)
    = (str_of_Z h ++ "h " ++ str_of_Z m ++ "m " ++ str_of_Z s ++ "s")%string
    /\ h * 3600 + m * 60 + s = 3725
    /\ 0 <= h.
Proof.
  destruct (format_duration_parts (7451 # 2))
    as (h & m & s & Hf & _ & _ & Hsum & Hh).
  exists h, m, s. split; [exact Hf |]. split; [exact Hsum |].
  apply Hh. unfold Qle. simpl. lia.
Defined.

Lemma normalize_timestamp_shape_witness :
  exists iso,
    normalize_timestamp (VStr (dq "'2021-03-04T12:10:00.250Z'")) = Ok iso
    /\ contains_char "Z"%char iso = false
    /\ first_char iso <> Some dquote
    /\ last_char iso <> Some dquote.
Proof.
  exact (proj1 (normalize_timestamp_shape
                  (VStr (dq "'2021-03-04T12:10:00.250Z'")))
               _ eq_refl).
Defined.

Lemma pair_call_events_count_witness :
  (List.length nested_sessions <= count_events is_start nested_calls)%nat
  /\ (List.length nested_sessions <= count_events is_end nested_calls)%nat.
Proof.
  apply (pair_call_events_count nested_calls nested_sessions).
  reflexivity.
Defined.

Lemma pair_call_events_order_independent_witness :
  pair_call_events (rev nested_calls) = pair_call_events nested_calls.
Proof.
  apply pair_call_events_order_independent.
  - apply Permutation_rev.
  - unfold instants. simpl.
    repeat (constructor; [simpl; intuition discriminate |]). constructor.
Defined.

Lemma pair_call_events_nested_witness :
  pair_call_events nested_calls = Ok nested_sessions.
Proof.
  apply (pair_call_events_nested
           [ ("join_call", t0, VStr "guild-1");
             ("voice_connection_success", t1, VStr "guild-1") ]
           [ ("voice_disconnect", t2, VStr "guild-1");
             ("voice_disconnect", t3, VNone) ]).
  - repeat constructor.
  - repeat constructor.
  - repeat first [ apply asc_nil | apply asc_cons
                 | apply Forall_nil | apply Forall_cons ];
      unfold ev_le; apply Z.leb_le; reflexivity.
  - reflexivity.
Defined.

Lemma pair_call_events_from_events_witness :
  exists st en,
    In st instant_call /\ In en instant_call
    /\ is_start st = true /\ is_end en = true
    /\ instant (event_ts st) <= instant (event_ts en)
    /\ start instant_session = event_ts st
    /\ end_ instant_session = event_ts en
    /\ server instant_session = py_or (context_of st) (VStr "Unknown/DM").
Proof.
  assert (Hrun : pair_call_events instant_call = Ok [instant_session])
    by reflexivity.
  exact (Forall_inv (pair_call_events_from_events _ _ Hrun)).
Defined.

Lemma most_common_top_witness :
  exists top rest,
    most_common 2 [entry_c; entry_a; entry_b] = Ok top
    /\ Permutation [entry_c; entry_a; entry_b] (top ++ rest)
    /\ List.length top = 2%nat.
Proof.
  destruct (most_common_top 2 [entry_c; entry_a; entry_b])
    as (top & rest & H1 & H2 & H3 & _).
  exists top, rest. repeat split; assumption.
Defined.


Lemma analyze_file_non_object_raises_witness :
  analyze_file PyLib.json_loads PyLib.fromisoformat
    [line_join; line_list; line_disconnect]
  = Raise AttributeError.
Proof.
  refine (proj2 (analyze_file_non_object_raises
                   PyLib.json_loads PyLib.fromisoformat
                   [line_join] [line_disconnect] _ line_list
                   (VList [VInt 1; VInt 2]) eq_refl _ eq_refl)).
  intros d. discriminate.
Defined.

Lemma analyze_file_unhashable_event_type_raises_witness :
  analyze_file PyLib.json_loads PyLib.fromisoformat
    [line_join; line_list_type; line_disconnect]
  = Raise TypeError.
Proof.
  exact (proj2 (analyze_file_unhashable_event_type_raises
                  PyLib.json_loads PyLib.fromisoformat
                  [line_join] [line_disconnect] _ line_list_type
                  [("event_type", VList [VStr "a"])] (VList [VStr "a"])
                  eq_refl eq_refl eq_refl eq_refl eq_refl)).
Defined.

Lemma analyze_file_non_string_timestamp_raises_witness :
  analyze_file PyLib.json_loads PyLib.fromisoformat
    [line_join; line_number_timestamp; line_disconnect]
  = Raise AttributeError.
Proof.
  refine (proj2 (analyze_file_non_string_timestamp_raises
                   PyLib.json_loads PyLib.fromisoformat
                   [line_join] [line_disconnect] _ line_number_timestamp
                   [("event_type", VStr "join_call"); ("timestamp", VInt 5)]
                   (VStr "join_call") (VInt 5)
                   eq_refl eq_refl eq_refl eq_refl eq_refl eq_refl _
                   eq_refl)).
  intros s. discriminate.
Defined.

Lemma analyze_file_skips_undecodable_witness :
  analyze_file PyLib.json_loads PyLib.fromisoformat
    [line_join; line_garbage; line_disconnect]
  = analyze_file PyLib.json_loads PyLib.fromisoformat
      [line_join; line_disconnect].
Proof.
  exact (proj2 (analyze_file_skips_undecodable
                  PyLib.json_loads PyLib.fromisoformat line_garbage eq_refl)
               [line_join] [line_disconnect]).
Defined.

Lemma analyze_line_falsy_timestamp_witness :
  analyze_line PyLib.json_loads PyLib.fromisoformat
    empty_analysis line_null_timestamp
  = Ok {| event_counts := [(VStr "join_call", 1)];
          call_events := [];
          messages := [] |}.
Proof.
  exact (analyze_line_falsy_timestamp
           PyLib.json_loads PyLib.fromisoformat empty_analysis
           line_null_timestamp
           [("event_type", VStr "join_call"); ("timestamp", VNone)]
           (VStr "join_call") VNone
           eq_refl eq_refl eq_refl eq_refl eq_refl eq_refl).
Defined.

Lemma sample_data_run :
  analyze_file PyLib.json_loads PyLib.fromisoformat sample_lines
  = Ok sample_data.
Proof. vm_compute. reflexivity. Qed.

Lemma analyze_file_count_per_type_witness :
  counter_get (VStr "join_call") (event_counts sample_data)
  = count_lines (has_event_type PyLib.json_loads "join_call") sample_lines
  /\ stream_count sample_data
     = count_lines (has_event_type PyLib.json_loads STREAM_START_EVENT)
         sample_lines.
Proof.
  exact (analyze_file_count_per_type
           PyLib.json_loads PyLib.fromisoformat "join_call"
           sample_lines sample_data sample_data_run).
Defined.

Lemma analyze_file_lists_sound_witness :
  Forall (fun e => is_start e = true \/ is_end e = true)
    (call_events sample_data)
  /\ Z.of_nat (List.length (call_events sample_data)
               + List.length (messages sample_data))
     <= counter_total (event_counts sample_data).
Proof.
  exact (analyze_file_lists_sound
           PyLib.json_loads PyLib.fromisoformat
           sample_lines sample_data sample_data_run).
Defined.

Lemma two_messages_run :
  analyze_file PyLib.json_loads PyLib.fromisoformat
    [line_message; line_message_later]
  = Ok two_messages_data.
Proof. vm_compute. reflexivity. Qed.

Lemma analyze_file_messages_newest_first_witness :
  messages two_messages_data = [message_late; message_early]
  /\ descending_by message_rank (messages two_messages_data)
  /\ exists st,
       analyze_lines PyLib.json_loads PyLib.fromisoformat empty_analysis
         [line_message; line_message_later] = Ok st
       /\ messages st = [message_early; message_late]
       /\ Permutation (messages st) (messages two_messages_data)
       /\ call_events two_messages_data = call_events st.
Proof.
  destruct (analyze_file_messages_newest_first
              PyLib.json_loads PyLib.fromisoformat
              [line_message; line_message_later] two_messages_data
              two_messages_run)
    as [Hd (st & Hst & Hp & Hc)].
  split; [reflexivity |]. split; [exact Hd |].
  exists st. split; [exact Hst |].
  split; [| split; assumption].
  assert (Hrun : analyze_lines PyLib.json_loads PyLib.fromisoformat
                   empty_analysis [line_message; line_message_later]
                 = Ok {| event_counts := [(VStr "send_message", 2)];
                         call_events := [];
                         messages := [message_early; message_late] |})
    by (vm_compute; reflexivity).
  rewrite Hrun in Hst. inversion Hst. reflexivity.
Defined.

Lemma analyze_then_pair_returns_witness :
  exists r sessions,
    analyze_file PyLib.json_loads PyLib.fromisoformat sample_lines = Ok r
    /\ pair_call_events (call_events r) = Ok sessions.
Proof.
  apply (analyze_then_pair_returns
           PyLib.json_loads PyLib.fromisoformat true).
  apply Forall_forall. intros line Hin.
  apply well_formed_lineb_sound.
  assert (Hall : forallb (well_formed_lineb PyLib.json_loads
                            PyLib.fromisoformat true) sample_lines = true)
    by (vm_compute; reflexivity).
  rewrite forallb_forall in Hall. apply Hall. exact Hin.
Defined.

Lemma analyze_file_counter_keys_witness :
  Forall sound_entry (event_counts sample_data)
  /\ exists st tail,
       analyze_lines PyLib.json_loads PyLib.fromisoformat empty_analysis
         [line_join; line_garbage] = Ok st
       /\ map fst (event_counts sample_data)
          = map fst (event_counts st) ++ tail.
Proof.
  exact (analyze_file_counter_keys
           PyLib.json_loads PyLib.fromisoformat
           [line_join; line_garbage]
           [ line_message; line_disconnect; line_empty_type;
             line_no_timestamp; line_no_type ]
           sample_data sample_data_run).
Defined.

Lemma main_fails_before_writing_witness :
  main PyLib.json_loads PyLib.fromisoformat PyLib.isoformat
    sample_strftime sample_fmt_other
    (Some [line_join; line_bad_timestamp])
  = ([], Raise ValueError)
  /\ main PyLib.json_loads PyLib.fromisoformat PyLib.isoformat
       sample_strftime sample_fmt_other
       (Some [line_join_naive; line_disconnect_utc])
     = ([], Raise TypeError)
  /\ main PyLib.json_loads PyLib.fromisoformat PyLib.isoformat
       sample_strftime sample_fmt_other
       (Some [line_join_list_guild; line_disconnect])
     = ([], Raise TypeError).
Proof.
  split; [| split].
  - apply (proj1 (main_fails_before_writing
                    PyLib.json_loads PyLib.fromisoformat PyLib.isoformat
                    sample_strftime sample_fmt_other
                    [line_join; line_bad_timestamp])).
    vm_compute. reflexivity.
  - apply (proj1 (proj2 (main_fails_before_writing
                           PyLib.json_loads PyLib.fromisoformat
                           PyLib.isoformat sample_strftime sample_fmt_other
                           [line_join_naive; line_disconnect_utc]))
             {| event_counts :=
                  [(VStr "join_call", 1); (VStr "voice_disconnect", 1)];
                call_events := mixed_calls;
                messages := [] |}).
    + vm_compute. reflexivity.
    + reflexivity.
  - apply (proj2 (proj2 (main_fails_before_writing
                           PyLib.json_loads PyLib.fromisoformat
                           PyLib.isoformat sample_strftime sample_fmt_other
                           [line_join_list_guild; line_disconnect]))
             {| event_counts :=
                  [(VStr "join_call", 1); (VStr "voice_disconnect", 1)];
                call_events :=
                  [ ("join_call", utc_time 12 0 0 0, VList [VStr "x"]);
                    ("voice_disconnect", utc_time 12 30 0 500000, VNone) ];
                messages := [] |}
             [ {| start := utc_time 12 0 0 0;
                  end_ := utc_time 12 30 0 500000;
                  server := VList [VStr "x"];
                  duration_sec := 1800500000 # 1000000 |} ]).
    + vm_compute. reflexivity.
    + reflexivity.
    + constructor. reflexivity.
Defined.

Lemma sample_log_run :
  main PyLib.json_loads PyLib.fromisoformat PyLib.isoformat
    sample_strftime sample_fmt_other (Some sample_lines)
  = (sample_log, Ok tt).
Proof. vm_compute. reflexivity. Qed.

Lemma main_reports_witness :
  exists data sessions sessions_sorted count_lines',
    analyze_file PyLib.json_loads PyLib.fromisoformat sample_lines = Ok data
    /\ pair_call_events (call_events data) = Ok sessions
    /\ Forall (fun s => hashable (server s) = true) sessions
    /\ Permutation sessions sessions_sorted
    /\ descending_by session_rank sessions_sorted
    /\ List.length count_lines' = List.length (event_counts data)
    /\ sample_log
       = match sessions with
         | [] => []
         | _ => [ Calls_csv
                    (map (csv_of_session PyLib.isoformat) sessions_sorted);
                  Calls_json
                    (map (json_of_session PyLib.isoformat) sessions_sorted) ]
         end
         ++ match messages data with
            | [] => []
            | _ => [ Messages_txt
                       (export_messages_log sample_strftime sample_fmt_other
                          (messages data)) ]
            end
         ++ [Event_counts_txt count_lines'].
Proof.
  exact (main_reports PyLib.json_loads PyLib.fromisoformat PyLib.isoformat
           sample_strftime sample_fmt_other sample_lines sample_log
           sample_log_run).
Defined.


Lemma most_common_stable_witness :
  most_common 2 [entry_c; entry_a; entry_b] = Ok [entry_a; entry_b]
  /\ most_common 2 [entry_b; entry_a; entry_c] = Ok [entry_b; entry_a]
  /\ filter (fun e => snd e =? 5) [entry_b; entry_a; entry_c]
     = [entry_b; entry_a].
Proof.
  split; [| split; [| reflexivity]].
  - destruct (most_common_stable [entry_c; entry_a; entry_b])
      as (ranked & _ & Hn & _ & _ & _ & Hex).
    rewrite (Hn 2%nat).
    destruct Hex as [E _]; [| | rewrite E; reflexivity].
    + apply (Permutation_cons_append [entry_a; entry_b] entry_c).
    + exists [entry_c], [], []. reflexivity.
  - destruct (most_common_stable [entry_b; entry_a; entry_c])
      as (ranked & Hr & Hn & _ & _ & Hst & _).
    rewrite (Hn 2%nat).
    assert (E : Ok ranked = Ok [entry_b; entry_a; entry_c])
      by (rewrite <- Hr; reflexivity).
    inversion E. reflexivity.
Defined.
